(** * Safe Bharat backend: the request pipeline of [server.js]

    A shallow embedding of the Express application: the route handlers, the
    middleware in front of them and the collaborators they call (document
    store, geocoder, SMS gateway, feed), followed by the properties of the
    pipeline.

    [server.js] comes in two copies.  The first stages uploads on disk and
    serves them back from [/uploads]; the second keeps uploads in memory,
    validates them and adds the [/upload] route.  The handlers shared by the
    two copies are textually the same. *)

From Stdlib Require Import ZArith NArith List Bool Ascii String Lia.
From stdpp Require Import base option list strings pretty gmap sorting.

Set Warnings "-clear-no-such-hyp".

Local Open Scope string_scope.
Local Open Scope Z_scope.

(** ** JavaScript values of the request: a field is absent or a string *)

(** JavaScript truthiness of a value that is [undefined] or a string: only a
    non-empty string is truthy. *)
Definition truthy (v : option string) : bool :=
  match v with
  | Some (String _ _) => true
  | _ => false
  end.

(** String conversion inside a template literal or a [+]. *)
Definition to_js_string (v : option string) : string :=
  match v with
  | Some s => s
  | None => "undefined"
  end.

(** [a || b] on such values. *)
Definition js_or (a : option string) (b : string) : string :=
  match a with
  | Some (String c s) => String c s
  | _ => b
  end.

(** [s.startsWith(p)] *)
Fixpoint startsWith (p s : string) : bool :=
  match p, s with
  | EmptyString, _ => true
  | String a p', String b s' => if decide (a = b) then startsWith p' s' else false
  | String _ _, EmptyString => false
  end.

Arguments startsWith : simpl never.

(** [a === b] for a possibly absent string and a string literal. *)
Definition strict_eq (v : option string) (lit : string) : bool :=
  match v with
  | Some s => bool_decide (s = lit)
  | None => false
  end.

(** ** Documents of the store (the mongoose schemas) *)

Record Alert := {
  al_title : option string;
  al_message : option string;
  al_time : Z
}.

(** What the [media] field of a report holds: a path below [/uploads/] in
    the first copy, a data URI with the content inline in the second. *)
Inductive Media :=
| MediaPath (filename : option (Z * string))
| MediaDataUri (mimetype : string) (content : string).

Record Report := {
  rp_description : option string;
  rp_location : option string;
  rp_media : option Media;
  rp_createdAt : Z
}.

Record Resource := {
  rs_name : string;
  rs_type : option string;
  rs_address : option string;
  rs_contact : option string;
  rs_city : option string
}.

Record Checkin := {
  ck_message : option string;
  ck_phone : option string;
  ck_createdAt : Z
}.

Record File := {
  fl_originalName : option string;
  fl_size : Z;
  fl_mimetype : string;
  fl_uploadDate : Z
}.

Record NewsItem := {
  nw_title : string;
  nw_content : string;
  nw_source : string;
  nw_time : string
}.

Record FeedItem := {
  fi_title : string;
  fi_contentSnippet : string;
  fi_pubDate : string
}.

Inductive Collection := Alerts | Reports | Resources | Checkins | Files.

Record Store := {
  st_alerts : list Alert;
  st_reports : list Report;
  st_resources : list Resource;
  st_checkins : list Checkin;
  st_files : list File
}.

(** ** The world a handler acts on *)

(** Calls that leave the process, in the order they are made. *)
Inductive Event :=
| Geocode (q : string)
| StoreFind (c : Collection)
| StoreSave (c : Collection)
| SmsSend (to : option string) (body : string)
| FeedFetch
| DiskWrite (stamp : Z) (originalname : string)
| ConsoleError (msg : string).

Record World := {
  w_store : Store;
  w_disk : list (Z * string);
  w_log : list Event
}.

(** What the collaborators answer while one request is being served. *)
Inductive GeoAnswer :=
| GeoData (matches : nat)
| GeoFailure (msg : string).

Record Env := {
  env_now : Z;
  env_geocoder : string -> GeoAnswer;
  env_store_error : option string;
  env_sms_error : option string;
  env_feed : string + list FeedItem
}.

(** [process.env] *)
Record Config := {
  JWT_SECRET : option string;
  TWILIO_SID : option string;
  TWILIO_PHONE : option string
}.

(** ** Exceptions and the handler monad *)

Record Exn := {
  exn_name : string;
  exn_message : string
}.

Inductive Outcome (A : Type) :=
| Ok (a : A)
| Throw (e : Exn).
Arguments Ok {A} a.
Arguments Throw {A} e.

Definition M (A : Type) : Type := World -> Outcome A * World.

Definition ret {A} (a : A) : M A := fun w => (Ok a, w).

Definition throw {A} (e : Exn) : M A := fun w => (Throw e, w).

Definition bind {A B} (m : M A) (k : A -> M B) : M B :=
  fun w =>
    match m w with
    | (Ok a, w') => k a w'
    | (Throw e, w') => (Throw e, w')
    end.

Definition try_catch {A} (m : M A) (h : Exn -> M A) : M A :=
  fun w =>
    match m w with
    | (Ok a, w') => (Ok a, w')
    | (Throw e, w') => h e w'
    end.

Declare Scope js_scope.
Delimit Scope js_scope with js.
Notation "x <- m ;; k" := (bind m (fun x => k))
  (at level 100, m at next level, k at level 200, right associativity) : js_scope.
Notation "'do' m ;; k" := (bind m (fun _ => k))
  (at level 100, m at next level, k at level 200, right associativity) : js_scope.
Notation "'try' m 'catch' err => h" := (try_catch m (fun err => h))
  (at level 100, m at level 200, err name, h at level 200) : js_scope.
Local Open Scope js_scope.

Definition emit (e : Event) : M unit :=
  fun w => (Ok tt, {| w_store := w_store w; w_disk := w_disk w; w_log := w_log w ++ [e] |}).

Definition get_store : M Store := fun w => (Ok (w_store w), w).

Definition put_store (s : Store) : M unit :=
  fun w => (Ok tt, {| w_store := s; w_disk := w_disk w; w_log := w_log w |}).

Definition write_disk (stamp : Z) (name : string) : M unit :=
  fun w => (Ok tt, {| w_store := w_store w;
                      w_disk := w_disk w ++ [(stamp, name)];
                      w_log := w_log w ++ [DiskWrite stamp name] |}).

(** ** Bearer tokens

    A token as [jsonwebtoken] makes it: the payload, the times of issue and
    of expiry in seconds, and the signature, which is represented by the
    secret it was computed with. *)

Record Token := {
  tk_username : option string;
  tk_iat : Z;
  tk_exp : Z;
  tk_signed_with : string
}.

(** ** Responses *)

Inductive Body :=
| JError (error : string)
| JToken (token : Token)
| JAlerts (l : list Alert)
| JAlert (a : Alert)
| JReport (r : Report)
| JResources (l : list Resource)
| JNews (l : list NewsItem)
| JCheckin (c : Checkin)
| JMessage (message : string)
| Text (s : string)
| StaticFile (f : Z * string).

Record Response := {
  status : Z;
  body : Body
}.

(** [res.json(b)] and [res.status(s).json(b)] *)
Definition json (b : Body) : Response := {| status := 200; body := b |}.
Definition status_json (s : Z) (b : Body) : Response := {| status := s; body := b |}.

(** ** Requests *)

Inductive Method := GET | POST | PUT | DELETE.

(** One word of the [Authorization] header after [split(' ')]: a serialized
    token (which is a non-empty word) or any other text. *)
Inductive HeaderWord :=
| Word (s : string)
| Jwt (t : Token).

(** The file part of a multipart body. *)
Record FilePart := {
  fp_fieldname : string;
  fp_originalname : string;
  fp_mimetype : string;
  fp_size : Z;
  fp_buffer : string
}.

Record Request := {
  req_ip : string;
  req_method : Method;
  req_path : string;
  req_city : option string;                       (* req.query.city *)
  req_authorization : option (list HeaderWord);   (* req.headers['authorization'], split at spaces *)
  req_username : option string;                   (* req.body.* *)
  req_password : option string;
  req_title : option string;
  req_message : option string;
  req_phone : option string;
  req_description : option string;
  req_location : option string;
  req_part : option FilePart
}.

(** ** Collaborators *)

(** The regular-expression engine.  [RegExp_i source] is
    [new RegExp(source, 'i')]: [None] when the constructor throws a
    [SyntaxError], otherwise the test the store applies to a field, true when
    the pattern matches somewhere in it. *)
Class RegExpEngine := {
  RegExp_i : string -> option (string -> bool)
}.

Definition MongoError (msg : string) : Exn := {| exn_name := "MongoError"; exn_message := msg |}.
Definition ValidationError (path : string) : Exn :=
  {| exn_name := "ValidationError"; exn_message := "Path `" +:+ path +:+ "` is required." |}.
Definition SyntaxError (source : string) : Exn :=
  {| exn_name := "SyntaxError"; exn_message := "Invalid regular expression: /" +:+ source +:+ "/" |}.
Definition TypeError (prop : string) : Exn :=
  {| exn_name := "TypeError";
     exn_message := "Cannot read properties of undefined (reading '" +:+ prop +:+ "')" |}.
Definition NetworkError (msg : string) : Exn := {| exn_name := "Error"; exn_message := msg |}.

(** A [required: true] string path passes validation when it holds a
    non-empty string. *)
Definition required (path : string) (v : option string) : M unit :=
  if truthy v then ret tt else throw (ValidationError path).

(** [Alert.find().sort({ time: -1 })]: newest first. *)
Fixpoint insert_by_time (a : Alert) (l : list Alert) : list Alert :=
  match l with
  | [] => [a]
  | b :: l' => if al_time b <? al_time a then a :: l else b :: insert_by_time a l'
  end.

Definition sort_time_desc (l : list Alert) : list Alert :=
  foldr insert_by_time [] l.

Section Handlers.

Context `{RegExpEngine}.
Variable cfg : Config.
Variable env : Env.

(** Every operation on the store reaches for the server first; when the
    server cannot be reached the operation rejects. *)
Definition store_call (c : Collection) (write : bool) : M Store :=
  do emit (if write then StoreSave c else StoreFind c) ;;
  match env_store_error env with
  | Some msg => throw (MongoError msg)
  | None => get_store
  end.

Definition Alert_find_sorted (limit : nat) : M (list Alert) :=
  s <- store_call Alerts false ;;
  ret (take limit (sort_time_desc (st_alerts s))).

(** [Resource.find(filter).limit(n)]: without a filter every document
    qualifies; with [{ city: re }] those whose [city] is a string that [re]
    matches. *)
Definition Resource_find (filter : option (string -> bool)) (limit : nat) : M (list Resource) :=
  s <- store_call Resources false ;;
  ret (take limit
         (match filter with
          | None => st_resources s
          | Some re =>
              List.filter (fun r => match rs_city r with Some c => re c | None => false end)
                          (st_resources s)
          end)).

Definition Alert_save (a : Alert) : M unit :=
  do required "title" (al_title a) ;;
  do required "message" (al_message a) ;;
  s <- store_call Alerts true ;;
  put_store {| st_alerts := st_alerts s ++ [a]; st_reports := st_reports s;
               st_resources := st_resources s; st_checkins := st_checkins s;
               st_files := st_files s |}.

Definition Report_save (r : Report) : M unit :=
  do required "description" (rp_description r) ;;
  s <- store_call Reports true ;;
  put_store {| st_alerts := st_alerts s; st_reports := st_reports s ++ [r];
               st_resources := st_resources s; st_checkins := st_checkins s;
               st_files := st_files s |}.

Definition Checkin_save (c : Checkin) : M unit :=
  do required "message" (ck_message c) ;;
  do required "phone" (ck_phone c) ;;
  s <- store_call Checkins true ;;
  put_store {| st_alerts := st_alerts s; st_reports := st_reports s;
               st_resources := st_resources s; st_checkins := st_checkins s ++ [c];
               st_files := st_files s |}.

Definition File_save (f : File) : M unit :=
  do required "originalName" (fl_originalName f) ;;
  s <- store_call Files true ;;
  put_store {| st_alerts := st_alerts s; st_reports := st_reports s;
               st_resources := st_resources s; st_checkins := st_checkins s;
               st_files := st_files s ++ [f] |}.

(** [axios.get] on the geocoder's search URL for [q]; the value is
    [response.data.length]. *)
Definition axios_get_nominatim (q : string) : M nat :=
  do emit (Geocode q) ;;
  match env_geocoder env q with
  | GeoData n => ret n
  | GeoFailure msg => throw (NetworkError msg)
  end.

Definition new_RegExp_i (source : string) : M (string -> bool) :=
  match RegExp_i source with
  | Some re => ret re
  | None => throw (SyntaxError source)
  end.

(** [twilioClient.messages.create({ body, from, to })] *)
Definition twilio_messages_create (body : string) (to : option string) : M unit :=
  do emit (SmsSend to body) ;;
  match env_sms_error env with
  | Some msg => throw (NetworkError msg)
  | None => ret tt
  end.

Definition parser_parseURL : M (list FeedItem) :=
  do emit FeedFetch ;;
  match env_feed env with
  | inl msg => throw (NetworkError msg)
  | inr items => ret items
  end.

(** [const twilioClient = process.env.TWILIO_SID ? twilio(...) : null] *)
Definition twilioClient : bool := truthy (TWILIO_SID cfg).

(** [process.env.JWT_SECRET || 'safebharatsecret'] *)
Definition jwt_secret : string := js_or (JWT_SECRET cfg) "safebharatsecret".

(** *** jsonwebtoken *)

(** The clock of [jsonwebtoken], in seconds. *)
Definition clockTimestamp (now_ms : Z) : Z := now_ms / 1000.

(** Modelled from the spec: the body of [jsonwebtoken] is not part of
    [server.js].  A credential holds its subject, the time of issue and the
    time of expiry, and is signed; here
    [jwt.sign({ username }, secret, { expiresIn: '1h' })]. *)
Definition jwt_sign (username : option string) (secret : string) (now_ms : Z) : Token :=
  {| tk_username := username;
     tk_iat := clockTimestamp now_ms;
     tk_exp := clockTimestamp now_ms + 3600;
     tk_signed_with := secret |}.

(** Modelled from the spec: a credential is valid only while the clock is
    before its expiry and its signature matches the signing secret;
    verification fails on a token that is malformed, expired or has an
    invalid signature.  [jwt.verify(token, secret, callback)]: the error or
    the payload handed to the callback. *)
Definition jwt_verify (token : HeaderWord) (secret : string) (now_ms : Z) : string + Token :=
  match token with
  | Word _ => inl "jwt malformed"
  | Jwt t =>
      if negb (bool_decide (tk_signed_with t = secret)) then inl "invalid signature"
      else if tk_exp t <=? clockTimestamp now_ms then inl "jwt expired"
      else inr t
  end.

(** *** JWT middleware *)

(** A middleware answers the request itself or calls [next()]. *)
Definition authenticateToken (req : Request) : Response + Token :=
  let token := hd_error (tl (default [] (req_authorization req))) in
  match token with
  | None | Some (Word "") => inl (status_json 401 (JError "Token required"))
  | Some token =>
      match jwt_verify token jwt_secret (env_now env) with
      | inl err => inl (status_json 403 (JError "Invalid token"))
      | inr user => inr user
      end
  end.

(** *** Mock login *)

Definition post_api_login (req : Request) : Response :=
  let username := req_username req in
  let password := req_password req in
  if strict_eq username "user" && strict_eq password "pass" then
    let token := jwt_sign username jwt_secret (env_now env) in
    json (JToken token)
  else
    status_json 401 (JError "Invalid credentials").

(** *** API endpoints *)

Definition get_api_alerts (req : Request) : M Response :=
  try
    (alerts <- Alert_find_sorted 50 ;;
     ret (json (JAlerts alerts)))
  catch err => ret (status_json 500 (JError "Server error")).

Definition post_api_alerts (req : Request) : M Response :=
  try
    (let title := req_title req in
     let message := req_message req in
     let alert := {| al_title := title; al_message := message; al_time := env_now env |} in
     do Alert_save alert ;;
     ret (status_json 201 (JAlert alert)))
  catch err => ret (status_json 500 (JError "Server error")).

Definition get_api_resources (req : Request) : M Response :=
  try
    (let city := req_city req in
     if negb (truthy city) then
       resources <- Resource_find None 100 ;;
       ret (json (JResources resources))
     else
       response_data_length <- axios_get_nominatim (to_js_string city +:+ ", India") ;;
       if (response_data_length =? 0)%nat then
         ret (status_json 404 (JError "City not found"))
       else
         re <- new_RegExp_i (to_js_string city) ;;
         resources <- Resource_find (Some re) 50 ;;
         ret (json (JResources resources)))
  catch err => ret (status_json 500 (JError "Server error")).

Definition get_api_news (req : Request) : M Response :=
  try
    (items <- parser_parseURL ;;
     let news := map (fun item => {| nw_title := fi_title item;
                                     nw_content := fi_contentSnippet item;
                                     nw_source := "PIB India";
                                     nw_time := fi_pubDate item |})
                     (take 10 items) in
     ret (json (JNews news)))
  catch err => ret (status_json 500 (JError "Error fetching news")).

Definition post_api_checkins (req : Request) : M Response :=
  try
    (let message := req_message req in
     let phone := req_phone req in
     let checkin := {| ck_message := message; ck_phone := phone; ck_createdAt := env_now env |} in
     do Checkin_save checkin ;;
     do (if twilioClient then
           twilio_messages_create ("Safe Bharat Check-In: " +:+ to_js_string message) phone
         else ret tt) ;;
     ret (status_json 201 (JCheckin checkin)))
  catch err => ret (status_json 500 (JError "Server error")).

End Handlers.

(** ** Multer *)

Inductive Storage := diskStorage | memoryStorage.

Record MulterOptions := {
  mo_storage : Storage;
  mo_fileSize : option Z;                         (* limits.fileSize *)
  mo_fileFilter : option (FilePart -> Exn + bool) (* cb(err, accept) *)
}.

(** [req.file] *)
Record UploadedFile := {
  originalname : string;
  mimetype : string;
  size : Z;
  filename : option (Z * string);   (* disk storage: `${Date.now()}-${file.originalname}` *)
  buffer : option string            (* memory storage *)
}.

Definition MulterError (msg : string) : Exn := {| exn_name := "MulterError"; exn_message := msg |}.

(** The first copy: [multer({ storage })] with the disk storage. *)
Definition upload1 : MulterOptions :=
  {| mo_storage := diskStorage; mo_fileSize := None; mo_fileFilter := None |}.

(** The second copy: memory storage, a size limit and a file filter. *)
Definition upload2 : MulterOptions :=
  {| mo_storage := memoryStorage;
     mo_fileSize := Some (5 * 1024 * 1024);
     mo_fileFilter := Some (fun file =>
       if startsWith "image/" (fp_mimetype file)
          || bool_decide (fp_mimetype file = "application/pdf")
       then inr true
       else inl {| exn_name := "Error"; exn_message := "Invalid file type" |}) |}.

(** Modelled from the spec: the body of [multer] is not part of [server.js],
    which passes it the options.  Validation comes before any persistence:
    the file filter sees the part before any of it is stored, and a part that
    outgrows the size limit is dropped with what was stored of it.
    [upload.single(field)]: the value is [req.file]; a throw is [next(err)]. *)
Definition single (opts : MulterOptions) (field : string) (now : Z) (req : Request)
  : M (option UploadedFile) :=
  match req_part req with
  | None => ret None
  | Some part =>
      if negb (bool_decide (fp_fieldname part = field)) then throw (MulterError "Unexpected field")
      else
        accept <- match mo_fileFilter opts with
                  | None => ret true
                  | Some fileFilter =>
                      match fileFilter part with
                      | inl err => throw err
                      | inr accept => ret accept
                      end
                  end ;;
        if negb accept then ret None
        else if match mo_fileSize opts with
                | Some limit => limit <? fp_size part
                | None => false
                end
        then throw (MulterError "File too large")
        else
          match mo_storage opts with
          | diskStorage =>
              do write_disk now (fp_originalname part) ;;
              ret (Some {| originalname := fp_originalname part; mimetype := fp_mimetype part;
                           size := fp_size part;
                           filename := Some (now, fp_originalname part); buffer := None |})
          | memoryStorage =>
              ret (Some {| originalname := fp_originalname part; mimetype := fp_mimetype part;
                           size := fp_size part;
                           filename := None; buffer := Some (fp_buffer part) |})
          end
  end.

(** ** The routes that take a file *)

Inductive Copy := FirstCopy | SecondCopy.

#[global] Instance Copy_eq_dec : EqDecision Copy.
Proof. solve_decision. Defined.

Section Uploads.

Variable env : Env.

(** [media] of a report: [`/uploads/${req.file.filename}`] in the first
    copy, [`data:${mimetype};base64,${buffer.toString('base64')}`] in the
    second, [null] without a file. *)
Definition report_media (copy : Copy) (file : option UploadedFile) : option Media :=
  match file with
  | None => None
  | Some file =>
      match copy with
      | FirstCopy => Some (MediaPath (filename file))
      | SecondCopy => Some (MediaDataUri (mimetype file) (default "" (buffer file)))
      end
  end.

Definition post_api_reports (copy : Copy) (req : Request) (file : option UploadedFile) : M Response :=
  try
    (let description := req_description req in
     let location := req_location req in
     let media := report_media copy file in
     let report := {| rp_description := description; rp_location := location;
                      rp_media := media; rp_createdAt := env_now env |} in
     do Report_save env report ;;
     ret (status_json 201 (JReport report)))
  catch err => ret (status_json 500 (JError "Server error")).

(** A property of [req.file] when [req.file] may be [undefined]. *)
Definition prop {A} (file : option UploadedFile) (name : string) (get : UploadedFile -> A) : M A :=
  match file with
  | Some f => ret (get f)
  | None => throw (TypeError name)
  end.

(** The [/upload] endpoint of the second copy (no authentication). *)
Definition post_upload (req : Request) (file : option UploadedFile) : M Response :=
  try
    (originalName <- prop file "originalname" originalname ;;
     size <- prop file "size" size ;;
     mimetype <- prop file "mimetype" mimetype ;;
     let file := {| fl_originalName := Some originalName; fl_size := size;
                    fl_mimetype := mimetype; fl_uploadDate := env_now env |} in
     do File_save env file ;;
     ret (json (JMessage "File metadata saved!")))
  catch err => ret (status_json 500 (JError (exn_message err))).

End Uploads.

(** ** The Express application *)

#[global] Instance Method_eq_dec : EqDecision Method.
Proof. solve_decision. Defined.

#[global] Instance Method_countable : Countable Method.
Proof.
  refine (inj_countable'
            (fun m => match m with GET => 0 | POST => 1 | PUT => 2 | DELETE => 3 end)%nat
            (fun n => match n with 0 => GET | 1 => POST | 2 => PUT | _ => DELETE end)%nat _).
  intros []; reflexivity.
Defined.

Definition lower (c : ascii) : ascii :=
  let n := N_of_ascii c in
  if ((65 <=? n) && (n <=? 90))%N then ascii_of_N (n + 32) else c.

Fixpoint toLowerCase (s : string) : string :=
  match s with
  | EmptyString => EmptyString
  | String c s' => String (lower c) (toLowerCase s')
  end.

(** Express matches a route path without regard to case and with an optional
    trailing slash (neither [case sensitive routing] nor [strict routing] is
    set). *)
Definition path_matches (route path : string) : bool :=
  let p := toLowerCase path in
  bool_decide (p = route) || bool_decide (p = route +:+ "/").

Arguments path_matches : simpl never.

Definition method_name (m : Method) : string :=
  match m with GET => "GET" | POST => "POST" | PUT => "PUT" | DELETE => "DELETE" end.

(** The answer of Express when no route takes the request. *)
Definition cannot (req : Request) : Response :=
  status_json 404 (Text ("Cannot " +:+ method_name (req_method req) +:+ " " +:+ req_path req)).

Section App.

Context `{RegExpEngine}.
Variable copy : Copy.
Variable cfg : Config.
Variable env : Env.

Definition upload : MulterOptions :=
  match copy with FirstCopy => upload1 | SecondCopy => upload2 end.

(** A route behind [authenticateToken]. *)
Definition authenticated (req : Request) (handler : M Response) : M Response :=
  match authenticateToken cfg env req with
  | inl response => ret response
  | inr user => handler
  end.

(** The routes in the order they are registered. *)
Definition routes (req : Request) : M Response :=
  let on m route := bool_decide (req_method req = m) && path_matches route (req_path req) in
  if on POST "/api/login" then ret (post_api_login cfg env req)
  else if on GET "/api/alerts" then get_api_alerts env req
  else if on POST "/api/alerts" then authenticated req (post_api_alerts env req)
  else if on POST "/api/reports" then
    authenticated req (file <- single upload "media" (env_now env) req ;;
                       post_api_reports env copy req file)
  else if on GET "/api/resources" then get_api_resources env req
  else if on GET "/api/news" then get_api_news env req
  else if on POST "/api/checkins" then authenticated req (post_api_checkins cfg env req)
  else if on POST "/upload" && bool_decide (copy = SecondCopy) then
    file <- single upload "file" (env_now env) req ;;
    post_upload env req file
  else ret (cannot req).

(** The error-handling middleware takes what a route passed to [next(err)]. *)
Definition with_error_handling (m : M Response) : M Response :=
  try m
  catch err =>
    (do emit (ConsoleError (exn_message err)) ;;
     ret (status_json 500 (JError "Internal server error"))).

End App.

(** ** Middleware with state: the rate limiter and the response cache *)

(** [windowMs: 15 * 60 * 1000, max: 100] *)
Definition windowMs : Z := 15 * 60 * 1000.
Definition max : nat := 100.

(** Modelled from the spec: the body of [express-rate-limit] is not part of
    [server.js], which only configures and mounts it.  Requests are grouped
    per client key into windows of fixed duration; a window is created on the
    first request in it and is over once its duration has elapsed; each
    request increments the count of the window. *)
Definition hit (windows : gmap string (Z * nat)) (now : Z) (key : string) : Z * nat :=
  match windows !! key with
  | Some (windowStart, count) =>
      if now <? windowStart + windowMs then (windowStart, S count) else (now, 1%nat)
  | None => (now, 1%nat)
  end.

(** Modelled from the spec: if the count exceeds the ceiling the request
    fails and the pipeline stops before the route handler. *)
Definition limited (window : Z * nat) : bool := (max <? window.2)%nat.

Definition too_many_requests : Response :=
  {| status := 429; body := Text "Too many requests, please try again later." |}.

(** [cache('5 minutes')] *)
Definition ttl : Z := 5 * 60 * 1000.

(** Modelled from the spec: the body of [apicache] is not part of
    [server.js].  The key is the request identity: method, path and query
    parameters ([city] is the one query parameter the application reads). *)
Definition cache_key (req : Request) : Method * string * option string :=
  (req_method req, req_path req, req_city req).

(** Modelled from the spec: an entry is served only within the TTL counted
    from the time it was stored. *)
Definition cached (entries : gmap (Method * string * option string) (Response * Z))
    (now : Z) (req : Request) : option Response :=
  match entries !! cache_key req with
  | Some (response, storedAt) => if now <? storedAt + ttl then Some response else None
  | None => None
  end.

(** Modelled from the spec: on a miss the successful response of the handler
    is stored. *)
Definition successful (response : Response) : bool :=
  (200 <=? status response) && (status response <? 300).

Record AppState := {
  app_world : World;
  app_windows : gmap string (Z * nat);
  app_cache : gmap (Method * string * option string) (Response * Z)
}.

(** The name the disk storage gives a file:
    [`${Date.now()}-${file.originalname}`]. *)
Definition disk_name (f : Z * string) : string := pretty f.1 +:+ "-" +:+ f.2.

(** [express.static('uploads')] mounted at [/uploads] (first copy): a GET for
    a stored upload is answered with the file, anything else goes on to the
    next middleware. *)
Definition static (req : Request) (disk : list (Z * string)) : option Response :=
  if bool_decide (req_method req = GET) then
    match List.find (fun f => bool_decide (req_path req = "/uploads/" +:+ disk_name f)) disk with
    | Some f => Some {| status := 200; body := StaticFile f |}
    | None => None
    end
  else None.

Section Pipeline.

Context `{RegExpEngine}.
Variable copy : Copy.
Variable cfg : Config.

(** What lies behind the rate limiter: the cache and, on a miss, the routes
    with the error handler (which leaves no throw).  [app.use(cache(...))]
    names no path and no method: every request that passes the limiter goes
    through the cache. *)
Definition behind_cache (env : Env) (st : AppState) (req : Request) : Response * AppState :=
  match cached (app_cache st) (env_now env) req with
  | Some response => (response, st)
  | None =>
      let '(outcome, world) := with_error_handling (routes copy cfg env req) (app_world st) in
      let response := match outcome with
                      | Ok response => response
                      | Throw _ => status_json 500 (JError "Internal server error")
                      end in
      (response,
       {| app_world := world;
          app_windows := app_windows st;
          app_cache := if successful response
                       then <[cache_key req := (response, env_now env)]> (app_cache st)
                       else app_cache st |})
  end.

Definition behind_static (env : Env) (st : AppState) (req : Request) : Response * AppState :=
  let window := hit (app_windows st) (env_now env) (req_ip req) in
  let st := {| app_world := app_world st;
               app_windows := <[req_ip req := window]> (app_windows st);
               app_cache := app_cache st |} in
  if limited window then (too_many_requests, st)
  else behind_cache env st req.

(** The middleware in the order of the [app.use] calls.  [cors] and
    [express.json] come first: a request is modelled as it leaves them, with
    its body parsed. *)
Definition app (env : Env) (st : AppState) (req : Request) : Response * AppState :=
  match (if bool_decide (copy = FirstCopy) then static req (w_disk (app_world st)) else None) with
  | Some response => (response, st)
  | None => behind_static env st req
  end.

(** A run of the server on the requests in the order they arrive, each with
    what the collaborators answer while it is served. *)
Fixpoint serve (st : AppState) (arrivals : list (Env * Request)) : list Response * AppState :=
  match arrivals with
  | [] => ([], st)
  | (env, req) :: rest =>
      let '(response, st) := app env st req in
      let '(responses, st) := serve st rest in
      (response :: responses, st)
  end.

End Pipeline.

(** ** The reading of the specification for the city filter

    The resources whose city field contains the supplied city as a substring
    without regard to case, bounded to 50. *)

Definition eq_ci (a b : ascii) : bool := bool_decide (lower a = lower b).

Fixpoint prefix_ci (p s : string) : bool :=
  match p, s with
  | EmptyString, _ => true
  | String a p', String b s' => eq_ci a b && prefix_ci p' s'
  | String _ _, EmptyString => false
  end.

Fixpoint contains_ci (p s : string) : bool :=
  prefix_ci p s ||
  match s with
  | EmptyString => false
  | String _ s' => contains_ci p s'
  end.

Definition resources_of_city (city : string) (l : list Resource) : list Resource :=
  take 50 (List.filter (fun r => match rs_city r with
                                 | Some c => contains_ci city c
                                 | None => false
                                 end) l).

(** ** A small engine to run the handlers on examples

    It knows the patterns made of ordinary characters and [.] (any character
    but a line feed) and refuses a pattern that holds any other syntax
    character. *)

Inductive Item :=
| Lit (c : ascii)
| AnyChar.

Definition syntax_character (c : ascii) : bool :=
  bool_decide (c ∈ list_ascii_of_string "^$\.*+?()[]{}|").

Fixpoint parse_items (source : string) : option (list Item) :=
  match source with
  | EmptyString => Some []
  | String c rest =>
      if bool_decide (c = "."%char) then cons AnyChar <$> parse_items rest
      else if syntax_character c then None
      else cons (Lit c) <$> parse_items rest
  end.

Definition item_matches (i : Item) (c : ascii) : bool :=
  match i with
  | Lit a => eq_ci a c
  | AnyChar => negb (bool_decide (c = "010"%char))
  end.

Fixpoint match_here (items : list Item) (s : string) : bool :=
  match items, s with
  | [], _ => true
  | i :: items', String c s' => item_matches i c && match_here items' s'
  | _ :: _, EmptyString => false
  end.

Fixpoint search (items : list Item) (s : string) : bool :=
  match_here items s ||
  match s with
  | EmptyString => false
  | String _ s' => search items s'
  end.

Definition small_engine : RegExpEngine :=
  {| RegExp_i := fun source => search <$> parse_items source |}.

(** The calls a computation makes from a world: what it appends to the log. *)
Definition calls {A} (m : M A) (w : World) : list Event :=
  drop (length (w_log w)) (w_log (m w).2).

(** The record [post_api_checkins] builds from the body. *)
Definition checkin_of (env : Env) (req : Request) : Checkin :=
  {| ck_message := req_message req; ck_phone := req_phone req; ck_createdAt := env_now env |}.

(** The record passes validation and the store takes it. *)
Definition persists (env : Env) (req : Request) : Prop :=
  truthy (req_message req) = true /\ truthy (req_phone req) = true
  /\ env_store_error env = None.

(** ** Concrete worlds and requests for the examples *)

Definition pune : Resource :=
  {| rs_name := "Relief camp"; rs_type := Some "shelter"; rs_address := None;
     rs_contact := None; rs_city := Some "Pune" |}.

Definition world_with (resources : list Resource) : World :=
  {| w_store := {| st_alerts := []; st_reports := []; st_resources := resources;
                   st_checkins := []; st_files := [] |};
     w_disk := [];
     w_log := [] |}.

Definition env_with (now : Z) (geocoder : string -> GeoAnswer) : Env :=
  {| env_now := now; env_geocoder := geocoder; env_store_error := None;
     env_sms_error := None; env_feed := inr [] |}.

Definition request (ip : string) (m : Method) (path : string) : Request :=
  {| req_ip := ip; req_method := m; req_path := path; req_city := None;
     req_authorization := None; req_username := None; req_password := None;
     req_title := None; req_message := None; req_phone := None;
     req_description := None; req_location := None; req_part := None |}.

Definition with_city (city : string) (req : Request) : Request :=
  {| req_ip := req_ip req; req_method := req_method req; req_path := req_path req;
     req_city := Some city;
     req_authorization := req_authorization req; req_username := req_username req;
     req_password := req_password req; req_title := req_title req;
     req_message := req_message req; req_phone := req_phone req;
     req_description := req_description req; req_location := req_location req;
     req_part := req_part req |}.

Definition log_in (username password : string) : Request :=
  let req := request "10.0.0.1" POST "/api/login" in
  {| req_ip := req_ip req; req_method := req_method req; req_path := req_path req;
     req_city := None; req_authorization := None;
     req_username := Some username; req_password := Some password;
     req_title := None; req_message := None; req_phone := None;
     req_description := None; req_location := None; req_part := None |}.

Definition check_in (message phone : string) : Request :=
  let req := request "10.0.0.1" POST "/api/checkins" in
  {| req_ip := req_ip req; req_method := req_method req; req_path := req_path req;
     req_city := None; req_authorization := None;
     req_username := None; req_password := None;
     req_title := None; req_message := Some message; req_phone := Some phone;
     req_description := None; req_location := None; req_part := None |}.

(** The request with the header [Authorization: Bearer <token>]. *)
Definition bearer (token : Token) (req : Request) : Request :=
  {| req_ip := req_ip req; req_method := req_method req; req_path := req_path req;
     req_city := req_city req;
     req_authorization := Some [Word "Bearer"; Jwt token];
     req_username := req_username req; req_password := req_password req;
     req_title := req_title req; req_message := req_message req;
     req_phone := req_phone req; req_description := req_description req;
     req_location := req_location req; req_part := req_part req |}.

Definition atlantis : Resource :=
  {| rs_name := "Harbour office"; rs_type := None; rs_address := None;
     rs_contact := None; rs_city := Some "Atlantis" |}.

(** A geocoder that finds Pune, however the name is decorated, and nothing
    else. *)
Definition geocoder1 (q : string) : GeoAnswer :=
  if bool_decide (q ∈ ["Pune, India"; "pune, India"; "Pune(, India"; "., India"])
  then GeoData 1 else GeoData 0.

Definition token1 : Token :=
  {| tk_username := Some "user"; tk_iat := 1700000000; tk_exp := 1700003600;
     tk_signed_with := "safebharatsecret" |}.

Definition notes_txt : FilePart :=
  {| fp_fieldname := "media"; fp_originalname := "notes.txt"; fp_mimetype := "text/plain";
     fp_size := 6 * 1024 * 1024; fp_buffer := "..." |}.

Definition photo_png : FilePart :=
  {| fp_fieldname := "file"; fp_originalname := "photo.png"; fp_mimetype := "image/png";
     fp_size := 1024 * 1024; fp_buffer := "..." |}.

(** A report with a file, sent with a bearer token. *)
Definition report_with (part : FilePart) (description : string) : Request :=
  let req := bearer token1 (request "10.0.0.1" POST "/api/reports") in
  {| req_ip := req_ip req; req_method := req_method req; req_path := req_path req;
     req_city := None; req_authorization := req_authorization req;
     req_username := None; req_password := None;
     req_title := None; req_message := None; req_phone := None;
     req_description := Some description; req_location := None; req_part := Some part |}.

Definition upload_of (part : option FilePart) : Request :=
  let req := request "10.0.0.1" POST "/upload" in
  {| req_ip := req_ip req; req_method := req_method req; req_path := req_path req;
     req_city := None; req_authorization := None;
     req_username := None; req_password := None;
     req_title := None; req_message := None; req_phone := None;
     req_description := None; req_location := None; req_part := part |}.

Definition no_config : Config :=
  {| JWT_SECRET := None; TWILIO_SID := None; TWILIO_PHONE := None |}.

(** A store that cannot be reached. *)
Definition env_store_down (now : Z) (msg : string) : Env :=
  {| env_now := now; env_geocoder := geocoder1; env_store_error := Some msg;
     env_sms_error := None; env_feed := inr [] |}.

(** The server as it starts, with an empty store. *)
Definition fresh_server : AppState :=
  {| app_world := world_with []; app_windows := ∅; app_cache := ∅ |}.

(** The requests of one client in a list of arrivals. *)
Definition from_client (c : string) (arrivals : list (Env * Request)) : nat :=
  length (List.filter (fun a => bool_decide (req_ip a.2 = c)) arrivals).

(** The state with the window of one client set. *)
Definition with_window (st : AppState) (c : string) (window : Z * nat) : AppState :=
  {| app_world := app_world st;
     app_windows := <[c := window]> (app_windows st);
     app_cache := app_cache st |}.

(** ** What a request may change *)

(** The world [w'] is the world [w] with the given documents and files added
    at the end of their collections and of the disk; the resources are the
    same. *)
Definition added (w w' : World) (al : list Alert) (rp : list Report) (ck : list Checkin)
    (fl : list File) (dk : list (Z * string)) : Prop :=
  st_alerts (w_store w') = (st_alerts (w_store w) ++ al)%list
  /\ st_reports (w_store w') = (st_reports (w_store w) ++ rp)%list
  /\ st_resources (w_store w') = st_resources (w_store w)
  /\ st_checkins (w_store w') = (st_checkins (w_store w) ++ ck)%list
  /\ st_files (w_store w') = (st_files (w_store w) ++ fl)%list
  /\ w_disk w' = (w_disk w ++ dk)%list.


(** Store and disk are the same in two worlds (the log may differ). *)
Definition same_data (w w' : World) : Prop :=
  w_store w' = w_store w /\ w_disk w' = w_disk w.

(** The statuses the handlers, the token middleware, the error middleware and
    the final 404 of Express set. *)
Definition statuses : list Z := [200; 201; 401; 403; 404; 500].


(** Newest first. *)
Definition newer_first (a b : Alert) : Prop := al_time b <= al_time a.

(** What the second copy's multer lets through: a declared type that is an
    image type or PDF, and a size of at most 5 MiB. *)
Definition passes_upload2 (part : FilePart) : Prop :=
  (startsWith "image/" (fp_mimetype part) = true \/ fp_mimetype part = "application/pdf")
  /\ fp_size part <= 5 * 1024 * 1024.

(** The record [/upload] makes of a part. *)
Definition file_of (env : Env) (part : FilePart) : File :=
  {| fl_originalName := Some (fp_originalname part); fl_size := fp_size part;
     fl_mimetype := fp_mimetype part; fl_uploadDate := env_now env |}.

(** The report the second copy makes of a request: the media inline, or
    [null] without a file. *)
Definition report_of2 (env : Env) (req : Request) : Report :=
  {| rp_description := req_description req; rp_location := req_location req;
     rp_media := match req_part req with
                 | Some part => Some (MediaDataUri (fp_mimetype part) (fp_buffer part))
                 | None => None
                 end;
     rp_createdAt := env_now env |}.

(** ** More requests and worlds for the examples *)

Definition post_alert (title message : string) : Request :=
  let req := request "10.0.0.1" POST "/api/alerts" in
  {| req_ip := req_ip req; req_method := req_method req; req_path := req_path req;
     req_city := None; req_authorization := None;
     req_username := None; req_password := None;
     req_title := Some title; req_message := Some message; req_phone := None;
     req_description := None; req_location := None; req_part := None |}.

Definition alert_at (time : Z) (title : string) : Alert :=
  {| al_title := Some title; al_message := Some "stay indoors"; al_time := time |}.

Definition world_with_alerts (alerts : list Alert) : World :=
  {| w_store := {| st_alerts := alerts; st_reports := []; st_resources := [];
                   st_checkins := []; st_files := [] |};
     w_disk := [];
     w_log := [] |}.

(** A geocoder that cannot be reached. *)
Definition env_geocoder_down (now : Z) (msg : string) : Env :=
  {| env_now := now; env_geocoder := fun _ => GeoFailure msg; env_store_error := None;
     env_sms_error := None; env_feed := inr [] |}.

Definition scan_pdf : FilePart :=
  {| fp_fieldname := "media"; fp_originalname := "scan.pdf"; fp_mimetype := "application/pdf";
     fp_size := 2 * 1024 * 1024; fp_buffer := "%PDF" |}.

(** ** Proof tools *)

Ltac run_handler :=
  unfold calls, get_api_resources, post_api_checkins, Resource_find, Checkin_save,
    store_call, axios_get_nominatim, new_RegExp_i, twilio_messages_create, required,
    try_catch, bind, ret, throw, emit, get_store, put_store; simpl.

Ltac run_upload :=
  unfold with_error_handling, routes, authenticated, single, post_api_reports, post_upload,
    Report_save, File_save, store_call, required, prop, write_disk,
    try_catch, bind, ret, throw, emit, get_store, put_store; simpl.

(** The calls read off a log that is written out. *)
Ltac log_calls := rewrite <- ?app_assoc, ?drop_app_length, ?drop_all; simpl.

(** Membership in a log that is written out. *)
Ltac in_log H :=
  repeat (apply elem_of_cons in H as [H|H]; [try discriminate H|]);
  try (apply elem_of_nil in H; destruct H).

(** Goals about a log that is written out. *)
Ltac settle_log :=
  log_calls; repeat split; try done; intros;
  repeat match goal with Hin : _ ∈ _ |- _ => in_log Hin end;
  naive_solver.

(** Decides the tests of [routes] on a method and a path that are known. *)
Ltac pick_route :=
  repeat match goal with
  | |- context [path_matches ?r ?p] =>
      let b := eval vm_compute in (path_matches r p) in change (path_matches r p) with b
  | |- context [bool_decide (?m = ?n :> Method)] =>
      let b := eval vm_compute in (bool_decide (m = n)) in change (bool_decide (m = n)) with b
  | |- context [bool_decide (?m = ?n :> Copy)] =>
      let b := eval vm_compute in (bool_decide (m = n)) in change (bool_decide (m = n)) with b
  end; simpl.

(** The read handlers and the write handlers, run in full. *)
Ltac run_reads :=
  unfold get_api_alerts, get_api_resources, get_api_news, Alert_find_sorted, Resource_find,
    parser_parseURL, axios_get_nominatim, new_RegExp_i, store_call,
    try_catch, bind, ret, throw, emit, get_store, put_store.

Ltac run_writes :=
  unfold post_api_alerts, post_api_reports, post_api_checkins, post_upload,
    Alert_save, Report_save, Checkin_save, File_save, twilio_messages_create, store_call,
    required, prop, try_catch, bind, ret, throw, emit, get_store, put_store.

(** * Properties *)

(** ** The small engine on ordinary names *)

Lemma match_here_plain source s :
  match_here (Lit <$> list_ascii_of_string source) s = prefix_ci source s.
Proof.
  revert s. induction source as [|a source IH]; intros s; [done|].
  simpl. destruct s as [|b s]; [done|]. simpl. by rewrite IH.
Qed.

Lemma search_plain source s :
  search (Lit <$> list_ascii_of_string source) s = contains_ci source s.
Proof.
  induction s as [|b s IH]; simpl.
  - by rewrite (match_here_plain source "").
  - by rewrite (match_here_plain source (String b s)), IH.
Qed.

Lemma parse_items_plain source :
  forallb (fun c => negb (syntax_character c)) (list_ascii_of_string source) = true ->
  parse_items source = Some (Lit <$> list_ascii_of_string source).
Proof.
  induction source as [|a source IH]; [done|]. simpl.
  intros [Ha Hrest]%andb_prop. rewrite (IH Hrest).
  destruct (syntax_character a) eqn:Hs; [done|].
  case_bool_decide as Hdot; [|done].
  subst a. by vm_compute in Hs.
Qed.

(** For a city spelled without syntax characters the pattern of the small
    engine is the substring test without regard to case. *)
Lemma small_engine_plain source :
  forallb (fun c => negb (syntax_character c)) (list_ascii_of_string source) = true ->
  exists re, RegExp_i (RegExpEngine := small_engine) source = Some re
             /\ forall s, re s = contains_ci source s.
Proof.
  intros Hplain. exists (search (Lit <$> list_ascii_of_string source)). split.
  - simpl. by rewrite parse_items_plain.
  - apply search_plain.
Qed.

(** ** The resource resolver *)

Section Resolver.

Context `{RegExpEngine}.
Variable env : Env.

(** The run of [get_api_resources] on a city the geocoder does not know. *)
Lemma resources_city_not_found req w city :
  req_city req = Some city -> city <> "" ->
  env_geocoder env (city +:+ ", India") = GeoData 0 ->
  get_api_resources env req w =
    (Ok (status_json 404 (JError "City not found")),
     {| w_store := w_store w; w_disk := w_disk w;
        w_log := w_log w ++ [Geocode (city +:+ ", India")] |}).
Proof.
  intros Hc Hne Hg. run_handler. rewrite Hc. destruct city; [done|]. simpl.
  simpl in Hg. by rewrite Hg.
Qed.

(** C1.  A query with a city present whose geocoding lookup returns zero
    matches fails with 404 'City not found', and the lookup is the only call
    the handler makes: the store is not queried, whatever it holds. *)
Theorem resources_unknown_city_not_found req w city q :
  req_city req = Some city ->
  Geocode q ∈ calls (get_api_resources env req) w ->
  env_geocoder env q = GeoData 0 ->
  (get_api_resources env req w).1 = Ok (status_json 404 (JError "City not found"))
  /\ calls (get_api_resources env req) w = [Geocode q]
  /\ (forall c, StoreFind c ∉ calls (get_api_resources env req) w)
  /\ w_store (get_api_resources env req w).2 = w_store w.
Proof.
  intros Hc Hin Hg.
  assert (Hq : city <> "" /\ q = city +:+ ", India").
  { revert Hin. run_handler. rewrite Hc.
    destruct city as [|a city]; simpl.
    - destruct (env_store_error env); simpl; log_calls; intros Hin; in_log Hin.
    - destruct (env_geocoder env (String a city +:+ ", India")) as [[|n]|msg] eqn:Hans; simpl;
        [|destruct (RegExp_i _); simpl; [destruct (env_store_error env); simpl|]|];
        log_calls; intros Hin; in_log Hin; injection Hin as ->; done. }
  destruct Hq as [Hne ->].
  unfold calls. rewrite (resources_city_not_found req w city Hc Hne Hg). simpl.
  log_calls. repeat split; try done. intros c Hs. in_log Hs.
Qed.

(** C4.  Without a city the geocoder is never called, and the answer of
    the store is returned as it comes: the first 100 resources, unfiltered. *)
Theorem resources_without_city req w :
  req_city req = None ->
  (forall q, Geocode q ∉ calls (get_api_resources env req) w)
  /\ (env_store_error env = None ->
      get_api_resources env req w =
        (Ok (json (JResources (take 100 (st_resources (w_store w))))),
         {| w_store := w_store w; w_disk := w_disk w;
            w_log := w_log w ++ [StoreFind Resources] |})).
Proof.
  intros Hc. run_handler. rewrite Hc. simpl.
  destruct (env_store_error env); simpl; log_calls.
  - split; [|done]. intros q Hin. in_log Hin.
  - split; [|done]. intros q Hin. in_log Hin.
Qed.

(** C10.  A city that is present but empty takes the path of the absent
    city: the same outcome in the same world, no call to the geocoder, never
    a 404, and the first 100 resources unfiltered when the store answers. *)
Theorem resources_empty_city_as_absent req req' w :
  req_city req = Some "" ->
  req_city req' = None ->
  get_api_resources env req w = get_api_resources env req' w
  /\ (forall q, Geocode q ∉ calls (get_api_resources env req) w)
  /\ (forall response, (get_api_resources env req w).1 = Ok response -> status response <> 404)
  /\ (env_store_error env = None ->
      (get_api_resources env req w).1 =
        Ok (json (JResources (take 100 (st_resources (w_store w)))))).
Proof.
  intros Hc Hc'. run_handler. rewrite Hc, Hc'. simpl.
  destruct (env_store_error env); simpl; log_calls.
  - repeat split; try done.
    + intros q Hin. in_log Hin.
    + by intros response [= <-].
  - repeat split; try done.
    + intros q Hin. in_log Hin.
    + by intros response [= <-].
Qed.

(** With a city the geocoder knows, the store is asked for the resources
    whose city the compiled pattern matches, bounded to 50. *)
Lemma resources_city_found req w city n re :
  req_city req = Some city -> city <> "" ->
  env_geocoder env (city +:+ ", India") = GeoData (S n) ->
  RegExp_i city = Some re ->
  env_store_error env = None ->
  get_api_resources env req w =
    (Ok (json (JResources
           (take 50 (List.filter (fun r => match rs_city r with
                                           | Some c => re c
                                           | None => false
                                           end) (st_resources (w_store w)))))),
     {| w_store := w_store w; w_disk := w_disk w;
        w_log := w_log w ++ [Geocode (city +:+ ", India"); StoreFind Resources] |}).
Proof.
  intros Hc Hne Hg Hre Hs. run_handler. rewrite Hc. destruct city; [done|]. simpl.
  simpl in Hg. rewrite Hg. simpl. simpl in Hre. rewrite Hre. simpl. rewrite Hs. simpl.
  by rewrite <- app_assoc.
Qed.

(** When the pattern built from the city tests for the city as a substring
    without regard to case, the answer is the one the specification words. *)
Lemma resources_city_found_plain req w city n re :
  req_city req = Some city -> city <> "" ->
  env_geocoder env (city +:+ ", India") = GeoData (S n) ->
  RegExp_i city = Some re ->
  (forall c, re c = contains_ci city c) ->
  env_store_error env = None ->
  (get_api_resources env req w).1 =
    Ok (json (JResources (resources_of_city city (st_resources (w_store w))))).
Proof.
  intros Hc Hne Hg Hre Hci Hs.
  rewrite (resources_city_found req w city n re) by done. simpl.
  unfold resources_of_city. do 4 f_equal.
  apply filter_ext. intros r. destruct (rs_city r); [apply Hci|done].
Qed.

(** C5.  The city is handed to the constructor as the source of a pattern.
    For a city that is no pattern, such as [Pune(], the constructor throws
    and the answer is 500 'Server error' although the geocoder found the
    city, the store is never asked: not the resources whose city contains
    the text. *)
Theorem resources_city_not_a_pattern req w city n :
  req_city req = Some city -> city <> "" ->
  RegExp_i city = None ->
  env_geocoder env (city +:+ ", India") = GeoData (S n) ->
  get_api_resources env req w =
    (Ok (status_json 500 (JError "Server error")),
     {| w_store := w_store w; w_disk := w_disk w;
        w_log := w_log w ++ [Geocode (city +:+ ", India")] |})
  /\ (get_api_resources env req w).1 <>
      Ok (json (JResources (resources_of_city city (st_resources (w_store w))))).
Proof.
  intros Hc Hne Hre Hg.
  assert (Hrun : get_api_resources env req w =
    (Ok (status_json 500 (JError "Server error")),
     {| w_store := w_store w; w_disk := w_disk w;
        w_log := w_log w ++ [Geocode (city +:+ ", India")] |})).
  { run_handler. rewrite Hc. destruct city; [done|]. simpl.
    simpl in Hg. rewrite Hg. simpl. simpl in Hre. by rewrite Hre. }
  split; [done|]. by rewrite Hrun.
Qed.

(** The same slip on a city that is a pattern: [.] stands for any character,
    so a resource is returned whose city holds no full stop. *)
Lemma resources_city_dot req w n re r :
  req_city req = Some "." ->
  RegExp_i "." = Some re ->
  re "Pune" = true ->
  env_geocoder env "., India" = GeoData (S n) ->
  env_store_error env = None ->
  rs_city r = Some "Pune" ->
  st_resources (w_store w) = [r] ->
  (get_api_resources env req w).1 = Ok (json (JResources [r]))
  /\ resources_of_city "." (st_resources (w_store w)) = [].
Proof.
  intros Hc Hre Hm Hg Hs Hr Hw.
  rewrite (resources_city_found req w "." n re) by done. simpl.
  unfold resources_of_city. rewrite Hw. simpl. rewrite Hr, Hm. simpl.
  done.
Qed.

End Resolver.

Lemma resources_unknown_city_not_found_witness :
  let env := env_with 0 geocoder1 in
  let req := with_city "Atlantis" (request "10.0.0.1" GET "/api/resources") in
  let w := world_with [atlantis] in
  (get_api_resources (H := small_engine) env req w).1
    = Ok (status_json 404 (JError "City not found"))
  /\ calls (get_api_resources (H := small_engine) env req) w = [Geocode "Atlantis, India"]
  /\ (forall c, StoreFind c ∉ calls (get_api_resources (H := small_engine) env req) w)
  /\ w_store (get_api_resources (H := small_engine) env req w).2 = w_store w.
Proof.
  intros env req w.
  apply (resources_unknown_city_not_found (H := small_engine) env req w
           "Atlantis" "Atlantis, India").
  - reflexivity.
  - vm_compute. left.
  - reflexivity.
Defined.

Lemma resources_without_city_witness :
  let env := env_with 0 geocoder1 in
  let req := request "10.0.0.1" GET "/api/resources" in
  let w := world_with [atlantis; pune] in
  get_api_resources (H := small_engine) env req w =
    (Ok (json (JResources [atlantis; pune])),
     {| w_store := w_store w; w_disk := []; w_log := [StoreFind Resources] |}).
Proof.
  intros env req w.
  apply (proj2 (resources_without_city (H := small_engine) env req w eq_refl)).
  reflexivity.
Defined.

Lemma resources_empty_city_as_absent_witness :
  let env := env_with 0 geocoder1 in
  let req := with_city "" (request "10.0.0.1" GET "/api/resources") in
  let req' := request "10.0.0.1" GET "/api/resources" in
  let w := world_with [atlantis; pune] in
  get_api_resources (H := small_engine) env req w
    = get_api_resources (H := small_engine) env req' w
  /\ (get_api_resources (H := small_engine) env req w).1
      = Ok (json (JResources [atlantis; pune])).
Proof.
  intros env req req' w.
  destruct (resources_empty_city_as_absent (H := small_engine) env req req' w eq_refl eq_refl)
    as (Hsame & _ & _ & Hall).
  split; [exact Hsame | exact (Hall eq_refl)].
Defined.

(** The resolver on the store of the examples: an ordinary name finds the
    resources of the city whatever the case, and a full stop finds them
    all. *)
Example resources_of_pune :
  (get_api_resources (H := small_engine) (env_with 0 geocoder1)
     (with_city "pune" (request "10.0.0.1" GET "/api/resources"))
     (world_with [atlantis; pune])).1
  = Ok (json (JResources [pune])).
Proof. reflexivity. Qed.

Example resources_of_full_stop :
  (get_api_resources (H := small_engine) (env_with 0 geocoder1)
     (with_city "." (request "10.0.0.1" GET "/api/resources"))
     (world_with [atlantis; pune])).1
  = Ok (json (JResources [atlantis; pune]))
  /\ resources_of_city "." [atlantis; pune] = [].
Proof. split; reflexivity. Qed.

Lemma resources_city_not_a_pattern_witness :
  let env := env_with 0 geocoder1 in
  let req := with_city "Pune(" (request "10.0.0.1" GET "/api/resources") in
  let w := world_with [atlantis; pune] in
  get_api_resources (H := small_engine) env req w =
    (Ok (status_json 500 (JError "Server error")),
     {| w_store := w_store w; w_disk := []; w_log := [Geocode "Pune(, India"] |}).
Proof.
  intros env req w.
  assert (Hne : "Pune(" <> "") by discriminate.
  apply (proj1 (resources_city_not_a_pattern (H := small_engine) env req w "Pune(" 0
                  eq_refl Hne eq_refl eq_refl)).
Defined.

(** ** The check-in notifier *)

Section Notifier.

Variable cfg : Config.
Variable env : Env.

(** C3.  In every run of the check-in handler an SMS dispatch comes after the
    save, and only when the save succeeded and a gateway is configured; a
    configured gateway is then always tried; and when the dispatch fails the
    answer is 500 while the record stays in the store.  Whether or not a
    gateway is configured and whatever becomes of the dispatch, the record is
    in the store after the run exactly when it passes validation and the
    store takes it, and the save is then the first call. *)
Theorem checkin_persisted_before_notification req w :
  let run := post_api_checkins cfg env req w in
  let made := calls (post_api_checkins cfg env req) w in
  let sms := SmsSend (req_phone req) ("Safe Bharat Check-In: " +:+ to_js_string (req_message req)) in
  (forall to body, SmsSend to body ∈ made ->
     made = [StoreSave Checkins; sms]
     /\ persists env req /\ twilioClient cfg = true
     /\ st_checkins (w_store run.2) = (st_checkins (w_store w) ++ [checkin_of env req])%list)
  /\ (persists env req -> twilioClient cfg = true -> made = [StoreSave Checkins; sms])
  /\ (forall to body msg, SmsSend to body ∈ made -> env_sms_error env = Some msg ->
        run.1 = Ok (status_json 500 (JError "Server error"))
        /\ st_checkins (w_store run.2) = (st_checkins (w_store w) ++ [checkin_of env req])%list)
  /\ (persists env req ->
        st_checkins (w_store run.2) = (st_checkins (w_store w) ++ [checkin_of env req])%list
        /\ made = StoreSave Checkins :: (if twilioClient cfg then [sms] else []))
  /\ (~ persists env req -> w_store run.2 = w_store w).
Proof.
  unfold persists, checkin_of. run_handler.
  destruct (req_message req) as [[|a m]|], (req_phone req) as [[|b p]|]; simpl;
    try settle_log.
  destruct (env_store_error env) as [e1|]; simpl; [settle_log|].
  destruct (twilioClient cfg); simpl; [|settle_log].
  destruct (env_sms_error env) as [e2|]; simpl; settle_log.
Qed.

End Notifier.

Lemma checkin_persisted_before_notification_witness :
  let cfg := {| JWT_SECRET := None; TWILIO_SID := Some "AC0123"; TWILIO_PHONE := Some "+15550100" |} in
  let env := {| env_now := 1000; env_geocoder := geocoder1; env_store_error := None;
                env_sms_error := Some "gateway timeout"; env_feed := inr [] |} in
  let req := check_in "safe at home" "+919800000000" in
  let w := world_with [] in
  calls (post_api_checkins cfg env req) w
    = [StoreSave Checkins; SmsSend (Some "+919800000000") "Safe Bharat Check-In: safe at home"]
  /\ (post_api_checkins cfg env req w).1 = Ok (status_json 500 (JError "Server error"))
  /\ st_checkins (w_store (post_api_checkins cfg env req w).2)
     = [{| ck_message := Some "safe at home"; ck_phone := Some "+919800000000";
           ck_createdAt := 1000 |}]
  /\ st_checkins (w_store (post_api_checkins no_config env req w).2)
     = [{| ck_message := Some "safe at home"; ck_phone := Some "+919800000000";
           ck_createdAt := 1000 |}]
  /\ calls (post_api_checkins no_config env req) w = [StoreSave Checkins]
  /\ w_store (post_api_checkins no_config env (check_in "safe at home" "") w).2 = w_store w.
Proof.
  intros cfg env req w.
  destruct (checkin_persisted_before_notification cfg env req w) as (_ & Hsent & Hkept & _).
  destruct (checkin_persisted_before_notification no_config env req w)
    as (_ & _ & _ & Hstored & _).
  destruct (checkin_persisted_before_notification no_config env (check_in "safe at home" "") w)
    as (_ & _ & _ & _ & Hnot).
  assert (Hcalls : calls (post_api_checkins cfg env req) w
    = [StoreSave Checkins; SmsSend (Some "+919800000000") "Safe Bharat Check-In: safe at home"]).
  { apply Hsent; [repeat split|]; reflexivity. }
  split; [exact Hcalls|].
  split; [|split; [|split; [|split]]].
  - apply (Hkept (Some "+919800000000") "Safe Bharat Check-In: safe at home" "gateway timeout").
    + rewrite Hcalls. right. left.
    + reflexivity.
  - apply (Hkept (Some "+919800000000") "Safe Bharat Check-In: safe at home" "gateway timeout").
    + rewrite Hcalls. right. left.
    + reflexivity.
  - apply Hstored. repeat split.
  - apply Hstored. repeat split.
  - apply Hnot. intros (_ & Hphone & _). discriminate Hphone.
Defined.

(** ** The token service *)

(** C9.  Login with the pair [user]/[pass] answers with a token; the
    verification middleware, handed that token, lets the request through
    exactly while the clock in seconds is before the expiry, which is 3600
    seconds after the issue: so at the time of issue it passes, and once an
    hour has elapsed the answer is 403 'Invalid token'.  Login with any other
    pair answers 401 'Invalid credentials'. *)
Theorem login_token_one_hour cfg env req :
  let token := jwt_sign (Some "user") (jwt_secret cfg) (env_now env) in
  (req_username req = Some "user" -> req_password req = Some "pass" ->
     post_api_login cfg env req = json (JToken token))
  /\ (forall env' req' scheme,
        req_authorization req' = Some [scheme; Jwt token] ->
        (clockTimestamp (env_now env') < clockTimestamp (env_now env) + 3600 ->
           authenticateToken cfg env' req' = inr token)
        /\ (clockTimestamp (env_now env) + 3600 <= clockTimestamp (env_now env') ->
              authenticateToken cfg env' req' = inl (status_json 403 (JError "Invalid token")))
        /\ (env_now env' = env_now env -> authenticateToken cfg env' req' = inr token)
        /\ (env_now env + 60 * 60 * 1000 <= env_now env' ->
              authenticateToken cfg env' req' = inl (status_json 403 (JError "Invalid token"))))
  /\ (~ (req_username req = Some "user" /\ req_password req = Some "pass") ->
        post_api_login cfg env req = status_json 401 (JError "Invalid credentials")).
Proof.
  intros token. split; [|split].
  - intros Hu Hp. unfold post_api_login. by rewrite Hu, Hp.
  - intros env' req' scheme Hh.
    assert (Hok : clockTimestamp (env_now env') < clockTimestamp (env_now env) + 3600 ->
                  authenticateToken cfg env' req' = inr token).
    { intros Hlt. unfold authenticateToken. rewrite Hh. simpl.
      rewrite bool_decide_eq_true_2 by done. simpl.
      destruct (Z.leb_spec (clockTimestamp (env_now env) + 3600) (clockTimestamp (env_now env')));
        [lia|done]. }
    assert (Hno : clockTimestamp (env_now env) + 3600 <= clockTimestamp (env_now env') ->
                  authenticateToken cfg env' req' = inl (status_json 403 (JError "Invalid token"))).
    { intros Hle. unfold authenticateToken. rewrite Hh. simpl.
      rewrite bool_decide_eq_true_2 by done. simpl.
      destruct (Z.leb_spec (clockTimestamp (env_now env) + 3600) (clockTimestamp (env_now env')));
        [done|lia]. }
    repeat split; try done.
    + intros Hsame. apply Hok. rewrite Hsame. lia.
    + intros Hhour. apply Hno. unfold clockTimestamp.
      assert (env_now env / 1000 + 3600 = (env_now env + 3600 * 1000) / 1000) as ->
        by (rewrite Z.div_add; lia).
      apply Z.div_le_mono; lia.
  - intros Hne. unfold post_api_login, strict_eq.
    destruct (req_username req) as [u|], (req_password req) as [p|]; simpl; try done.
    + repeat case_bool_decide; simpl; try done. subst. by destruct Hne.
    + by rewrite andb_false_r.
Qed.

Lemma login_token_one_hour_witness :
  let cfg := {| JWT_SECRET := None; TWILIO_SID := None; TWILIO_PHONE := None |} in
  let env := env_with 1700000000500 geocoder1 in
  let later := env_with (1700000000500 + 3600000) geocoder1 in
  let token := {| tk_username := Some "user"; tk_iat := 1700000000; tk_exp := 1700003600;
                  tk_signed_with := "safebharatsecret" |} in
  post_api_login cfg env (log_in "user" "pass") = json (JToken token)
  /\ authenticateToken cfg env (bearer token (request "10.0.0.1" POST "/api/alerts")) = inr token
  /\ authenticateToken cfg later (bearer token (request "10.0.0.1" POST "/api/alerts"))
     = inl (status_json 403 (JError "Invalid token"))
  /\ post_api_login cfg env (log_in "user" "password")
     = status_json 401 (JError "Invalid credentials").
Proof.
  intros cfg env later token.
  destruct (login_token_one_hour cfg env (log_in "user" "pass")) as (Hin & Hv & _).
  destruct (login_token_one_hour cfg env (log_in "user" "password")) as (_ & _ & Hout).
  split; [exact (Hin eq_refl eq_refl)|].
  destruct (Hv env (bearer token (request "10.0.0.1" POST "/api/alerts")) (Word "Bearer") eq_refl)
    as (_ & _ & Hnow & _).
  destruct (Hv later (bearer token (request "10.0.0.1" POST "/api/alerts")) (Word "Bearer") eq_refl)
    as (_ & _ & _ & Hlater).
  split; [exact (Hnow eq_refl)|].
  split; [apply Hlater; vm_compute; discriminate|].
  apply Hout. intros [_ Hp]. discriminate Hp.
Defined.

(** ** The upload handler *)

Section Upload.

Context `{RegExpEngine}.
Variable cfg : Config.
Variable env : Env.

(** The part the second copy turns away: its declared type is neither an
    image type nor PDF, or it is larger than 5 MiB. *)
Lemma second_copy_rejects_before_persistence req w part field :
  req_part req = Some part ->
  (startsWith "image/" (fp_mimetype part) = false /\ fp_mimetype part <> "application/pdf")
  \/ 5 * 1024 * 1024 < fp_size part ->
  exists err, single upload2 field (env_now env) req w = (Throw err, w).
Proof.
  intros Hp Hbad. unfold single. rewrite Hp. case_bool_decide; simpl; [|by eexists].
  unfold bind, ret, throw. simpl.
  destruct (startsWith "image/" (fp_mimetype part)) eqn:Himg; simpl.
  - destruct Hbad as [[? _]|Hbig]; [done|].
    destruct (Z.ltb_spec (5 * 1024 * 1024) (fp_size part)); [by eexists|lia].
  - case_bool_decide; simpl.
    + destruct Hbad as [[_ ?]|Hbig]; [done|].
      destruct (Z.ltb_spec (5 * 1024 * 1024) (fp_size part)); [by eexists|lia].
    + by eexists.
Qed.

(** The route a request with a given method and path takes. *)
Lemma route_reports copy req :
  req_method req = POST -> req_path req = "/api/reports" ->
  routes copy cfg env req =
    authenticated cfg env req
      (file <- single (upload copy) "media" (env_now env) req ;;
       post_api_reports env copy req file).
Proof. intros Hm Hp. unfold routes. rewrite Hm, Hp. by pick_route. Qed.

Lemma route_upload req :
  req_method req = POST -> req_path req = "/upload" ->
  routes SecondCopy cfg env req =
    (file <- single upload2 "file" (env_now env) req ;; post_upload env req file).
Proof. intros Hm Hp. unfold routes. rewrite Hm, Hp. by pick_route. Qed.

(** At the routes of the second copy a part that is turned away ends in the
    error handler: 500 with the fixed message, nothing stored. *)
Lemma second_copy_upload_rejected req w part :
  req_method req = POST -> req_path req = "/upload" ->
  req_part req = Some part ->
  (startsWith "image/" (fp_mimetype part) = false /\ fp_mimetype part <> "application/pdf")
  \/ 5 * 1024 * 1024 < fp_size part ->
  let r := with_error_handling (routes SecondCopy cfg env req) w in
  r.1 = Ok (status_json 500 (JError "Internal server error"))
  /\ w_store r.2 = w_store w /\ w_disk r.2 = w_disk w.
Proof.
  intros Hm Hp Hpart Hbad. rewrite route_upload by done.
  destruct (second_copy_rejects_before_persistence req w part "file" Hpart Hbad) as [err Herr].
  unfold with_error_handling, try_catch, bind. by rewrite Herr.
Qed.

Lemma second_copy_report_rejected req w part user :
  req_method req = POST -> req_path req = "/api/reports" ->
  authenticateToken cfg env req = inr user ->
  req_part req = Some part ->
  (startsWith "image/" (fp_mimetype part) = false /\ fp_mimetype part <> "application/pdf")
  \/ 5 * 1024 * 1024 < fp_size part ->
  let r := with_error_handling (routes SecondCopy cfg env req) w in
  r.1 = Ok (status_json 500 (JError "Internal server error"))
  /\ w_store r.2 = w_store w /\ w_disk r.2 = w_disk w.
Proof.
  intros Hm Hp Hauth Hpart Hbad. rewrite route_reports by done.
  unfold authenticated. rewrite Hauth.
  destruct (second_copy_rejects_before_persistence req w part "media" Hpart Hbad) as [err Herr].
  unfold with_error_handling, try_catch, bind. simpl. by rewrite Herr.
Qed.

(** An image of at most 5 MiB with a name goes through: its metadata is
    saved. *)
Lemma second_copy_image_accepted req w part :
  req_method req = POST -> req_path req = "/upload" ->
  req_part req = Some part -> fp_fieldname part = "file" ->
  startsWith "image/" (fp_mimetype part) = true ->
  fp_size part <= 5 * 1024 * 1024 ->
  fp_originalname part <> "" ->
  env_store_error env = None ->
  let r := with_error_handling (routes SecondCopy cfg env req) w in
  r.1 = Ok (json (JMessage "File metadata saved!"))
  /\ st_files (w_store r.2) =
       (st_files (w_store w) ++
          [{| fl_originalName := Some (fp_originalname part); fl_size := fp_size part;
              fl_mimetype := fp_mimetype part; fl_uploadDate := env_now env |}])%list
  /\ w_disk r.2 = w_disk w.
Proof.
  intros Hm Hp Hpart Hf Himg Hsize Hname Hs. rewrite route_upload by done.
  run_upload. rewrite Hpart, Hf. simpl. rewrite Himg. simpl.
  destruct (Z.ltb_spec (5 * 1024 * 1024) (fp_size part)); [lia|]. simpl.
  destruct (fp_originalname part); [done|]. simpl. by rewrite Hs.
Qed.

(** C6.  The first copy hands every part of the [media] field to the disk
    storage: no filter and no size limit stand before it, so a part of any
    declared type and any size is written below [./uploads/] before the
    handler runs, and the report that points to it is saved. *)
Theorem first_copy_upload_not_validated req w part user :
  req_method req = POST -> req_path req = "/api/reports" ->
  authenticateToken cfg env req = inr user ->
  req_part req = Some part -> fp_fieldname part = "media" ->
  let r := with_error_handling (routes FirstCopy cfg env req) w in
  let report := {| rp_description := req_description req; rp_location := req_location req;
                   rp_media := Some (MediaPath (Some (env_now env, fp_originalname part)));
                   rp_createdAt := env_now env |} in
  w_disk r.2 = (w_disk w ++ [(env_now env, fp_originalname part)])%list
  /\ (truthy (req_description req) = true -> env_store_error env = None ->
      r.1 = Ok (status_json 201 (JReport report))
      /\ st_reports (w_store r.2) = (st_reports (w_store w) ++ [report])%list).
Proof.
  intros Hm Hp Hauth Hpart Hf. rewrite route_reports by done.
  unfold authenticated. rewrite Hauth.
  run_upload. rewrite Hpart, Hf. simpl.
  destruct (req_description req) as [[|a d]|]; simpl;
    destruct (env_store_error env); simpl; split; done.
Qed.

(** What the catch of every other handler sends is a fixed text. *)
Lemma other_handlers_fixed_message copy req file w response :
  ((get_api_alerts env req w).1 = Ok response
   \/ (post_api_alerts env req w).1 = Ok response
   \/ (post_api_reports env copy req file w).1 = Ok response
   \/ (get_api_resources env req w).1 = Ok response
   \/ (get_api_news env req w).1 = Ok response
   \/ (post_api_checkins cfg env req w).1 = Ok response) ->
  status response = 500 ->
  body response = JError "Server error" \/ body response = JError "Error fetching news".
Proof.
  unfold get_api_alerts, post_api_alerts, post_api_reports, get_api_resources, get_api_news,
    post_api_checkins, Alert_find_sorted, Alert_save, Report_save, Resource_find, Checkin_save,
    parser_parseURL, axios_get_nominatim, new_RegExp_i, twilio_messages_create, store_call,
    required, try_catch, bind, ret, throw, emit, get_store, put_store.
  intros Hrun H500.
  repeat destruct Hrun as [Hrun|Hrun]; simpl in Hrun;
    repeat case_match; simplify_eq/=; auto.
Qed.

(** C7.  The catch of the [/upload] handler sends the message of whatever
    was thrown: the text of the TypeError when the request carries no file,
    the message of the store's error when the save fails. *)
Theorem upload_error_message_sent req w :
  req_method req = POST -> req_path req = "/upload" ->
  (req_part req = None ->
     (with_error_handling (routes SecondCopy cfg env req) w).1 =
       Ok (status_json 500
             (JError "Cannot read properties of undefined (reading 'originalname')")))
  /\ (forall part msg,
        req_part req = Some part -> fp_fieldname part = "file" ->
        startsWith "image/" (fp_mimetype part) = true ->
        fp_size part <= 5 * 1024 * 1024 ->
        fp_originalname part <> "" ->
        env_store_error env = Some msg ->
        (with_error_handling (routes SecondCopy cfg env req) w).1 =
          Ok (status_json 500 (JError msg))).
Proof.
  intros Hm Hp. rewrite route_upload by done. split.
  - intros Hpart. run_upload. by rewrite Hpart.
  - intros part msg Hpart Hf Himg Hsize Hname Hs.
    run_upload. rewrite Hpart, Hf. simpl. rewrite Himg. simpl.
    destruct (Z.ltb_spec (5 * 1024 * 1024) (fp_size part)); [lia|]. simpl.
    destruct (fp_originalname part); [done|]. simpl. by rewrite Hs.
Qed.

End Upload.

(** The two parts of the examples at the routes of the second copy. *)
Example notes_txt_rejected_by_second_copy :
  let r := with_error_handling
             (routes (H := small_engine) SecondCopy no_config (env_with 1700000000500 geocoder1)
                (report_with notes_txt "flood at the bridge")) (world_with []) in
  r.1 = Ok (status_json 500 (JError "Internal server error"))
  /\ w_store r.2 = w_store (world_with []) /\ w_disk r.2 = [].
Proof.
  assert (Htype : startsWith "image/" (fp_mimetype notes_txt) = false
                  /\ fp_mimetype notes_txt <> "application/pdf") by (split; [done|discriminate]).
  exact (second_copy_report_rejected (H := small_engine) no_config
           (env_with 1700000000500 geocoder1) (report_with notes_txt "flood at the bridge")
           (world_with []) notes_txt token1 eq_refl eq_refl eq_refl eq_refl (or_introl Htype)).
Qed.

Example photo_png_accepted_by_second_copy :
  let r := with_error_handling
             (routes (H := small_engine) SecondCopy no_config (env_with 1700000000500 geocoder1)
                (upload_of (Some photo_png))) (world_with []) in
  r.1 = Ok (json (JMessage "File metadata saved!"))
  /\ st_files (w_store r.2) =
       [{| fl_originalName := Some "photo.png"; fl_size := 1024 * 1024;
           fl_mimetype := "image/png"; fl_uploadDate := 1700000000500 |}]
  /\ w_disk r.2 = [].
Proof.
  assert (Hname : fp_originalname photo_png <> "") by discriminate.
  assert (Hsize : fp_size photo_png <= 5 * 1024 * 1024) by (vm_compute; discriminate).
  exact (second_copy_image_accepted (H := small_engine) no_config
           (env_with 1700000000500 geocoder1) (upload_of (Some photo_png)) (world_with [])
           photo_png eq_refl eq_refl eq_refl eq_refl eq_refl Hsize Hname eq_refl).
Qed.

Lemma first_copy_upload_not_validated_witness :
  let env := env_with 1700000000500 geocoder1 in
  let req := report_with notes_txt "flood at the bridge" in
  let r := with_error_handling (routes (H := small_engine) FirstCopy no_config env req)
             (world_with []) in
  let report := {| rp_description := Some "flood at the bridge"; rp_location := None;
                   rp_media := Some (MediaPath (Some (1700000000500, "notes.txt")));
                   rp_createdAt := 1700000000500 |} in
  w_disk r.2 = [(1700000000500, "notes.txt")]
  /\ r.1 = Ok (status_json 201 (JReport report))
  /\ st_reports (w_store r.2) = [report].
Proof.
  intros env req r report.
  destruct (first_copy_upload_not_validated (H := small_engine) no_config env req
              (world_with []) notes_txt token1 eq_refl eq_refl eq_refl eq_refl eq_refl)
    as [Hdisk Hsaved].
  split; [exact Hdisk|]. exact (Hsaved eq_refl eq_refl).
Defined.

Lemma upload_error_message_sent_witness :
  let w := world_with [] in
  (with_error_handling
     (routes (H := small_engine) SecondCopy no_config (env_with 0 geocoder1) (upload_of None)) w).1
    = Ok (status_json 500
            (JError "Cannot read properties of undefined (reading 'originalname')"))
  /\ (with_error_handling
        (routes (H := small_engine) SecondCopy no_config
           (env_store_down 0 "connect ECONNREFUSED 10.1.2.3:27017")
           (upload_of (Some photo_png))) w).1
     = Ok (status_json 500 (JError "connect ECONNREFUSED 10.1.2.3:27017")).
Proof.
  intros w. split.
  - apply (proj1 (upload_error_message_sent (H := small_engine) no_config
                    (env_with 0 geocoder1) (upload_of None) w eq_refl eq_refl)).
    reflexivity.
  - apply (proj2 (upload_error_message_sent (H := small_engine) no_config
                    (env_store_down 0 "connect ECONNREFUSED 10.1.2.3:27017")
                    (upload_of (Some photo_png)) w eq_refl eq_refl)
             photo_png "connect ECONNREFUSED 10.1.2.3:27017");
      try reflexivity; vm_compute; discriminate.
Defined.

(** ** The rate limiter and the response cache in the pipeline *)

Section Limiter.

Context `{RegExpEngine}.
Variable copy : Copy.
Variable cfg : Config.

Lemma behind_cache_windows env st req :
  app_windows (behind_cache copy cfg env st req).2 = app_windows st.
Proof.
  unfold behind_cache. destruct (cached _ _ _); [done|].
  by destruct (with_error_handling _ _).
Qed.

(** Every request that reaches the limiter is counted, whatever comes of it. *)
Lemma behind_static_windows env st req :
  app_windows (behind_static copy cfg env st req).2 =
    <[req_ip req := hit (app_windows st) (env_now env) (req_ip req)]> (app_windows st).
Proof.
  unfold behind_static. destruct (limited _); [done|].
  by rewrite behind_cache_windows.
Qed.

Lemma serve_state_cons st env req rest :
  (serve copy cfg st ((env, req) :: rest)).2 = (serve copy cfg (app copy cfg env st req).2 rest).2.
Proof.
  simpl. destruct (app copy cfg env st req) as [response st1]. simpl.
  by destruct (serve copy cfg st1 rest).
Qed.

Lemma serve_state_app st l1 l2 :
  (serve copy cfg st (l1 ++ l2)).2 = (serve copy cfg (serve copy cfg st l1).2 l2).2.
Proof.
  revert st. induction l1 as [|[env req] l1 IH]; intros st; [done|].
  rewrite <- app_comm_cons, !serve_state_cons. apply IH.
Qed.

(** In the first copy the static files are served in front of the limiter: a
    GET for a stored upload is answered without being counted. *)
Lemma first_copy_static_not_counted env st req f :
  copy = FirstCopy ->
  req_method req = GET ->
  f ∈ w_disk (app_world st) ->
  req_path req = "/uploads/" +:+ disk_name f ->
  exists f', app copy cfg env st req = ({| status := 200; body := StaticFile f' |}, st).
Proof.
  intros -> Hm Hf Hp. unfold app, static. rewrite Hm. simpl.
  destruct (List.find _ _) as [f'|] eqn:Hfind; [by eexists|].
  apply list_elem_of_In in Hf.
  apply (find_none _ _ Hfind) in Hf. by rewrite bool_decide_eq_true_2 in Hf.
Qed.

End Limiter.

Section SecondCopyLimiter.

Context `{RegExpEngine}.
Variable cfg : Config.

Lemma app_second_copy env st req :
  app SecondCopy cfg env st req = behind_static SecondCopy cfg env st req.
Proof. done. Qed.

(** The requests of other clients leave the window of a client alone. *)
Lemma serve_other_clients c st pre :
  Forall (fun a : Env * Request => req_ip a.2 <> c) pre ->
  app_windows (serve SecondCopy cfg st pre).2 !! c = app_windows st !! c.
Proof.
  revert st. induction pre as [|[env req] pre IH]; intros st Hpre; [done|].
  apply Forall_cons in Hpre as [Hne Hpre]. simpl in Hne.
  rewrite serve_state_cons, IH by done.
  rewrite app_second_copy, behind_static_windows. by rewrite lookup_insert_ne.
Qed.

(** Within its window every request of the client adds one to the count. *)
Lemma serve_counts c t0 n st rest :
  app_windows st !! c = Some (t0, n) ->
  Forall (fun a : Env * Request => req_ip a.2 = c -> env_now a.1 < t0 + windowMs) rest ->
  app_windows (serve SecondCopy cfg st rest).2 !! c = Some (t0, (n + from_client c rest)%nat).
Proof.
  revert st n. induction rest as [|[env req] rest IH]; intros st n Hw Hrest.
  - unfold from_client. simpl. by rewrite Nat.add_0_r.
  - apply Forall_cons in Hrest as [Hin Hrest]. simpl in Hin.
    rewrite serve_state_cons. unfold from_client. simpl.
    case_bool_decide as Hc; simpl.
    + rewrite (IH _ (S n)); [by rewrite Nat.add_succ_r| |done].
      rewrite app_second_copy, behind_static_windows, Hc, lookup_insert_eq.
      unfold hit. rewrite Hw.
      destruct (Z.ltb_spec (env_now env) (t0 + windowMs)); [done|]. specialize (Hin Hc). lia.
    + rewrite (IH _ n); [done| |done].
      rewrite app_second_copy, behind_static_windows. by rewrite lookup_insert_ne.
Qed.

(** C8.  A client opens a window at [t0] with the request [req0] and sends
    the requests of [rest] within it, among the requests of other clients.
    Its next request is then the one after [n] counted ones.  Within the
    window it is turned away with 429 once [n] has reached the ceiling of
    100, and then nothing behind the limiter runs: the world and the cache
    stay as they were.  Below the ceiling, and in any case once the window
    is over, it goes on to the cache and the routes. *)
Theorem rate_limit_window st pre env0 req0 rest env req :
  let c := req_ip req0 in
  let t0 := env_now env0 in
  match app_windows st !! c with
  | Some (start, _) => start + windowMs <= t0
  | None => True
  end ->
  Forall (fun a : Env * Request => req_ip a.2 <> c) pre ->
  Forall (fun a : Env * Request => req_ip a.2 = c -> env_now a.1 < t0 + windowMs) rest ->
  req_ip req = c ->
  let n := S (from_client c rest) in
  let st' := (serve SecondCopy cfg st (pre ++ (env0, req0) :: rest)).2 in
  app_windows st' !! c = Some (t0, n)
  /\ (env_now env < t0 + windowMs -> (max <= n)%nat ->
        app SecondCopy cfg env st' req = (too_many_requests, with_window st' c (t0, S n)))
  /\ (env_now env < t0 + windowMs -> (n < max)%nat ->
        app SecondCopy cfg env st' req =
          behind_cache SecondCopy cfg env (with_window st' c (t0, S n)) req)
  /\ (t0 + windowMs <= env_now env ->
        app SecondCopy cfg env st' req =
          behind_cache SecondCopy cfg env (with_window st' c (env_now env, 1%nat)) req).
Proof.
  intros c t0 Hfresh Hpre Hrest Hc n st'.
  assert (Hw : app_windows st' !! c = Some (t0, n)).
  { unfold st'. rewrite serve_state_app, serve_state_cons.
    apply (serve_counts c t0 1); [|done].
    rewrite app_second_copy, behind_static_windows. subst c t0. rewrite lookup_insert_eq.
    unfold hit. rewrite serve_other_clients by done.
    destruct (app_windows st !! req_ip req0) as [[start k]|]; [|done].
    destruct (Z.ltb_spec (env_now env0) (start + windowMs)); [lia|done]. }
  split; [done|].
  rewrite app_second_copy. unfold behind_static, with_window. rewrite Hc.
  unfold hit. rewrite Hw. unfold limited. simpl.
  repeat split.
  - intros Hin Hmax. destruct (Z.ltb_spec (env_now env) (t0 + windowMs)); [|lia]. simpl.
    destruct (Nat.ltb_spec max (S n)); [done|lia].
  - intros Hin Hmax. destruct (Z.ltb_spec (env_now env) (t0 + windowMs)); [|lia]. simpl.
    destruct (Nat.ltb_spec max (S n)); [lia|done].
  - intros Hout. destruct (Z.ltb_spec (env_now env) (t0 + windowMs)); [lia|]. simpl.
    done.
Qed.

End SecondCopyLimiter.

Lemma rate_limit_window_witness :
  let env := env_with 0 geocoder1 in
  let later := env_with (15 * 60 * 1000) geocoder1 in
  let req := request "10.0.0.1" GET "/api/alerts" in
  let st' := (serve (H := small_engine) SecondCopy no_config fresh_server
                (replicate 100 (env, req))).2 in
  app_windows st' !! "10.0.0.1" = Some (0, 100%nat)
  /\ app (H := small_engine) SecondCopy no_config env st' req
     = (too_many_requests, with_window st' "10.0.0.1" (0, 101%nat))
  /\ app (H := small_engine) SecondCopy no_config later st' req
     = behind_cache (H := small_engine) SecondCopy no_config later
         (with_window st' "10.0.0.1" (15 * 60 * 1000, 1%nat)) req.
Proof.
  intros env later req st'.
  assert (Hrest : Forall (fun a : Env * Request =>
                     req_ip a.2 = req_ip req -> env_now a.1 < env_now env + windowMs)
                   (replicate 99 (env, req))).
  { apply Forall_replicate. intros _. vm_compute. reflexivity. }
  destruct (rate_limit_window (H := small_engine) no_config fresh_server [] env req
              (replicate 99 (env, req)) env req I (List.Forall_nil _) Hrest eq_refl)
    as (Hn & Hover & _ & _).
  destruct (rate_limit_window (H := small_engine) no_config fresh_server [] env req
              (replicate 99 (env, req)) later req I (List.Forall_nil _) Hrest eq_refl)
    as (_ & _ & _ & Hnext).
  split; [exact Hn|]. split.
  - apply Hover; [vm_compute; reflexivity|vm_compute; lia].
  - apply Hnext. vm_compute. discriminate.
Defined.

(** ** The response cache *)

Section Cache.

Context `{RegExpEngine}.
Variable copy : Copy.
Variable cfg : Config.

(** On a hit within the TTL the stored response is the answer and nothing
    else happens: no route runs, the state is as before. *)
Lemma cache_hit_replays env st req response storedAt :
  app_cache st !! cache_key req = Some (response, storedAt) ->
  env_now env < storedAt + ttl ->
  behind_cache copy cfg env st req = (response, st).
Proof.
  intros Hentry Hlive. unfold behind_cache, cached. rewrite Hentry.
  by destruct (Z.ltb_spec (env_now env) (storedAt + ttl)); [|lia].
Qed.

Lemma route_checkins env req :
  req_method req = POST -> req_path req = "/api/checkins" ->
  routes copy cfg env req = authenticated cfg env req (post_api_checkins cfg env req).
Proof. intros Hm Hp. unfold routes. rewrite Hm, Hp. by pick_route. Qed.

Lemma checkin_saved env req w :
  persists env req -> twilioClient cfg = false ->
  post_api_checkins cfg env req w =
    (Ok (status_json 201 (JCheckin (checkin_of env req))),
     {| w_store := {| st_alerts := st_alerts (w_store w);
                      st_reports := st_reports (w_store w);
                      st_resources := st_resources (w_store w);
                      st_checkins := st_checkins (w_store w) ++ [checkin_of env req];
                      st_files := st_files (w_store w) |};
        w_disk := w_disk w;
        w_log := w_log w ++ [StoreSave Checkins] |}).
Proof.
  intros (Hm & Hp & Hs) Ht. run_handler. rewrite Ht.
  destruct (req_message req) as [[|a m]|] eqn:Hm'; try done.
  destruct (req_phone req) as [[|b p]|] eqn:Hp'; try done. simpl. rewrite Hs. simpl.
  unfold checkin_of. by rewrite Hm', Hp'.
Qed.

(** A POST is not a request for a static file. *)
Lemma app_post env st req :
  req_method req = POST ->
  app copy cfg env st req = behind_static copy cfg env st req.
Proof.
  intros Hm. unfold app, static. rewrite Hm.
  by destruct (bool_decide (copy = FirstCopy)).
Qed.

(** C2.  The cache is mounted in front of every route, the POST routes among
    them.  On a server that has just started, a check-in is saved and its
    201 is stored under the key of the request; a second POST to the same
    path within the TTL, whatever its body and its credentials, is answered
    with that stored response, and its record is never saved. *)
Theorem cached_checkin_replayed env1 env2 st req1 req2 user :
  app_windows st = ∅ -> app_cache st = ∅ ->
  req_method req1 = POST -> req_path req1 = "/api/checkins" -> req_city req1 = None ->
  req_method req2 = POST -> req_path req2 = "/api/checkins" -> req_city req2 = None ->
  authenticateToken cfg env1 req1 = inr user ->
  persists env1 req1 -> twilioClient cfg = false ->
  env_now env2 < env_now env1 + ttl ->
  let r1 := app copy cfg env1 st req1 in
  let r2 := app copy cfg env2 r1.2 req2 in
  r1.1 = status_json 201 (JCheckin (checkin_of env1 req1))
  /\ r2.1 = r1.1
  /\ app_world r2.2 = app_world r1.2
  /\ st_checkins (w_store (app_world r2.2))
     = (st_checkins (w_store (app_world st)) ++ [checkin_of env1 req1])%list.
Proof.
  intros Hw Hc Hm1 Hp1 Hq1 Hm2 Hp2 Hq2 Hauth Hsave Htw Hlive r1 r2.
  assert (Hr1 : r1 =
    (status_json 201 (JCheckin (checkin_of env1 req1)),
     {| app_world := (post_api_checkins cfg env1 req1 (app_world st)).2;
        app_windows := <[req_ip req1 := (env_now env1, 1%nat)]> (app_windows st);
        app_cache := <[cache_key req1 :=
                         (status_json 201 (JCheckin (checkin_of env1 req1)), env_now env1)]>
                       (app_cache st) |})).
  { unfold r1. rewrite app_post by done. unfold behind_static, hit. rewrite Hw, lookup_empty.
    simpl. unfold behind_cache, cached. simpl. rewrite Hc, lookup_empty.
    rewrite route_checkins by done. unfold authenticated. rewrite Hauth.
    unfold with_error_handling, try_catch. rewrite checkin_saved by done. simpl.
    done. }
  assert (Hkey : cache_key req2 = cache_key req1).
  { unfold cache_key. by rewrite Hm1, Hm2, Hp1, Hp2, Hq1, Hq2. }
  assert (Hr2 : r2 =
    (r1.1, {| app_world := app_world r1.2;
              app_windows := <[req_ip req2 := hit (app_windows r1.2) (env_now env2) (req_ip req2)]>
                               (app_windows r1.2);
              app_cache := app_cache r1.2 |})).
  { unfold r2. rewrite app_post by done. unfold behind_static.
    assert (Hlim : limited (hit (app_windows r1.2) (env_now env2) (req_ip req2)) = false).
    { rewrite Hr1. simpl. unfold hit. rewrite Hw.
      destruct (decide (req_ip req1 = req_ip req2)) as [->|Hne].
      - rewrite lookup_insert_eq. by destruct (_ <? _).
      - by rewrite lookup_insert_ne, lookup_empty. }
    rewrite Hlim.
    rewrite (cache_hit_replays env2 _ req2 r1.1 (env_now env1)); [done| |done].
    simpl. rewrite Hkey, Hr1. simpl. by rewrite lookup_insert_eq. }
  rewrite Hr2. simpl. rewrite Hr1. simpl. repeat split; try done.
  by rewrite checkin_saved.
Qed.

End Cache.

Lemma cached_checkin_replayed_witness :
  let env1 := env_with 1700000000500 geocoder1 in
  let env2 := env_with 1700000060500 geocoder1 in
  let req1 := bearer token1 (check_in "safe at home" "+919800000000") in
  let req2 := bearer token1 (check_in "need help at the bridge" "+919811111111") in
  let first := {| ck_message := Some "safe at home"; ck_phone := Some "+919800000000";
                  ck_createdAt := 1700000000500 |} in
  let r1 := app (H := small_engine) SecondCopy no_config env1 fresh_server req1 in
  let r2 := app (H := small_engine) SecondCopy no_config env2 r1.2 req2 in
  r1.1 = status_json 201 (JCheckin first)
  /\ r2.1 = status_json 201 (JCheckin first)
  /\ st_checkins (w_store (app_world r2.2)) = [first].
Proof.
  intros env1 env2 req1 req2 first r1 r2.
  destruct (cached_checkin_replayed (H := small_engine) SecondCopy no_config env1 env2
              fresh_server req1 req2 token1
              eq_refl eq_refl eq_refl eq_refl eq_refl eq_refl eq_refl eq_refl eq_refl
              (conj eq_refl (conj eq_refl eq_refl)) eq_refl eq_refl)
    as (H1 & H2 & _ & H3).
  split; [exact H1|]. split; [|exact H3].
  fold r1 r2 in H2. rewrite H2. exact H1.
Defined.

(** * Further properties of the routes *)

Section Routes.

Context `{RegExpEngine}.
Variable copy : Copy.
Variable cfg : Config.
Variable env : Env.

(** The computation [routes] picks for a request, with the method it picks
    it for. *)
Lemma routes_cases req :
  (req_method req = POST /\ routes copy cfg env req = ret (post_api_login cfg env req))
  \/ (req_method req = GET /\ routes copy cfg env req = get_api_alerts env req)
  \/ (req_method req = POST
      /\ routes copy cfg env req = authenticated cfg env req (post_api_alerts env req))
  \/ (req_method req = POST
      /\ routes copy cfg env req =
           authenticated cfg env req
             (file <- single (upload copy) "media" (env_now env) req ;;
              post_api_reports env copy req file))
  \/ (req_method req = GET /\ routes copy cfg env req = get_api_resources env req)
  \/ (req_method req = GET /\ routes copy cfg env req = get_api_news env req)
  \/ (req_method req = POST
      /\ routes copy cfg env req = authenticated cfg env req (post_api_checkins cfg env req))
  \/ (req_method req = POST /\ copy = SecondCopy
      /\ routes copy cfg env req =
           (file <- single upload2 "file" (env_now env) req ;; post_upload env req file))
  \/ routes copy cfg env req = ret (cannot req).
Proof.
  unfold routes.
  repeat match goal with
  | |- context [bool_decide (req_method req = ?m) && path_matches ?r (req_path req)] =>
      destruct (bool_decide (req_method req = m) && path_matches r (req_path req)) eqn:?
  end;
  repeat match goal with
  | Hon : _ && _ = true |- _ => apply andb_prop in Hon as [?%bool_decide_eq_true ?]
  end; simpl; try tauto; destruct copy; simpl; tauto.
Qed.

End Routes.

Section Effects.

Context `{RegExpEngine}.
Variable copy : Copy.
Variable cfg : Config.
Variable env : Env.

Lemma same_data_added w w' : same_data w w' -> added w w' [] [] [] [] [].
Proof. intros [Hs Hd]. unfold added. by rewrite Hs, Hd, !app_nil_r. Qed.

Lemma added_same_data w w' : added w w' [] [] [] [] [] -> same_data w w'.
Proof.
  unfold added, same_data. rewrite !app_nil_r. intros (? & ? & ? & ? & ? & ?).
  split; [|done]. destruct (w_store w'), (w_store w); simpl in *. congruence.
Qed.

(** The three read handlers answer 200, 404 or 500 and leave store and disk
    as they are. *)
Lemma read_handlers_effect req w :
  let ra := get_api_alerts env req w in
  let rr := get_api_resources env req w in
  let rn := get_api_news env req w in
  (exists response, ra.1 = Ok response /\ status response ∈ [200; 500]) /\ same_data w ra.2
  /\ (exists response, rr.1 = Ok response /\ status response ∈ [200; 404; 500])
  /\ same_data w rr.2
  /\ (exists response, rn.1 = Ok response /\ status response ∈ [200; 500]) /\ same_data w rn.2.
Proof.
  run_reads. unfold same_data. simpl.
  split_and!; repeat case_match; simplify_eq/=; try done;
    eexists; (split; [done|]); simpl; set_solver.
Qed.

(** What [authenticateToken] answers itself is 401 or 403. *)
Lemma authenticateToken_status req response :
  authenticateToken cfg env req = inl response -> status response ∈ [401; 403].
Proof.
  unfold authenticateToken.
  destruct (hd_error _) as [[s|t]|]; [destruct s| |]; simpl;
    repeat case_match; intros ?; simplify_eq/=; set_solver.
Qed.

Lemma with_error_handling_ok m w response :
  (m w).1 = Ok response -> with_error_handling m w = m w.
Proof.
  unfold with_error_handling, try_catch. by destruct (m w) as [[r|e] w']; intros ?; simplify_eq/=.
Qed.

(** The two write handlers without a file answer 201 or 500, add at most one
    document to their collection and touch nothing else. *)
Lemma post_api_alerts_effect req w :
  let r := post_api_alerts env req w in
  (exists response, r.1 = Ok response /\ status response ∈ [201; 500])
  /\ w_disk r.2 = w_disk w
  /\ st_reports (w_store r.2) = st_reports (w_store w)
  /\ st_resources (w_store r.2) = st_resources (w_store w)
  /\ st_checkins (w_store r.2) = st_checkins (w_store w)
  /\ st_files (w_store r.2) = st_files (w_store w)
  /\ exists al, st_alerts (w_store r.2) = (st_alerts (w_store w) ++ al)%list
                /\ (length al <= 1)%nat.
Proof.
  run_writes. simpl.
  destruct (truthy (req_title req)); simpl;
    [destruct (truthy (req_message req)); simpl;
       [destruct (env_store_error env); simpl|]|].
  all: split_and!; try done; try (eexists; split; [done|]; simpl; set_solver).
  all: first [ by exists []; rewrite app_nil_r; simpl; split; [done|lia]
             | eexists [_]; simpl; split; [done|lia] ].
Qed.

Lemma post_api_checkins_effect req w :
  let r := post_api_checkins cfg env req w in
  (exists response, r.1 = Ok response /\ status response ∈ [201; 500])
  /\ w_disk r.2 = w_disk w
  /\ st_alerts (w_store r.2) = st_alerts (w_store w)
  /\ st_reports (w_store r.2) = st_reports (w_store w)
  /\ st_resources (w_store r.2) = st_resources (w_store w)
  /\ st_files (w_store r.2) = st_files (w_store w)
  /\ exists ck, st_checkins (w_store r.2) = (st_checkins (w_store w) ++ ck)%list
                /\ (length ck <= 1)%nat.
Proof.
  run_writes. simpl.
  destruct (truthy (req_message req)); simpl;
    [destruct (truthy (req_phone req)); simpl;
       [destruct (env_store_error env); simpl;
          [|destruct (twilioClient cfg); simpl; [destruct (env_sms_error env); simpl|]]|]|].
  all: split_and!; try done; try (eexists; split; [done|]; simpl; set_solver).
  all: first [ by exists []; rewrite app_nil_r; simpl; split; [done|lia]
             | eexists [_]; simpl; split; [done|lia] ].
Qed.

(** Multer leaves the store alone and writes at most one file, and only
    with the disk storage; when it passes an error on, it has written
    nothing. *)
Lemma single_effect opts field now req w :
  let r := single opts field now req w in
  w_store r.2 = w_store w
  /\ exists dk, w_disk r.2 = (w_disk w ++ dk)%list /\ (length dk <= 1)%nat
                /\ (dk <> [] -> mo_storage opts = diskStorage /\ exists f, r.1 = Ok (Some f)).
Proof.
  unfold single, bind, ret, throw, write_disk.
  destruct (req_part req) as [part|]; simpl;
    [|split; [done|]; exists []; rewrite app_nil_r; simpl; split_and!; [done|lia|done]].
  destruct (negb _); simpl;
    [split; [done|]; exists []; rewrite app_nil_r; simpl; split_and!; [done|lia|done]|].
  destruct (mo_fileFilter opts) as [fileFilter|]; simpl;
    [destruct (fileFilter part) as [err|[|]]; simpl|];
    try (split; [done|]; exists []; rewrite app_nil_r; simpl; split_and!; [done|lia|done]).
  all: destruct (match mo_fileSize opts with Some _ => _ | None => _ end); simpl;
    try (split; [done|]; exists []; rewrite app_nil_r; simpl; split_and!; [done|lia|done]).
  all: destruct (mo_storage opts); simpl;
    try (split; [done|]; exists []; rewrite app_nil_r; simpl; split_and!; [done|lia|done]).
  all: split; [done|]; eexists [_]; simpl; split_and!; [done|lia|]; intros _; split; [done|];
    by eexists.
Qed.

(** The handlers behind multer answer 201 (200 for [/upload]) or 500, add at
    most one document to their collection and touch nothing else. *)
Lemma post_api_reports_effect req file w :
  let r := post_api_reports env copy req file w in
  (exists response, r.1 = Ok response /\ status response ∈ [201; 500])
  /\ w_disk r.2 = w_disk w
  /\ st_alerts (w_store r.2) = st_alerts (w_store w)
  /\ st_resources (w_store r.2) = st_resources (w_store w)
  /\ st_checkins (w_store r.2) = st_checkins (w_store w)
  /\ st_files (w_store r.2) = st_files (w_store w)
  /\ exists rp, st_reports (w_store r.2) = (st_reports (w_store w) ++ rp)%list
                /\ (length rp <= 1)%nat.
Proof.
  run_writes. simpl.
  destruct (truthy (req_description req)); simpl;
    [destruct (env_store_error env); simpl|].
  all: split_and!; try done; try (eexists; split; [done|]; simpl; set_solver).
  all: first [ by exists []; rewrite app_nil_r; simpl; split; [done|lia]
             | eexists [_]; simpl; split; [done|lia] ].
Qed.

Lemma post_upload_effect req file w :
  let r := post_upload env req file w in
  (exists response, r.1 = Ok response /\ status response ∈ [200; 500])
  /\ w_disk r.2 = w_disk w
  /\ st_alerts (w_store r.2) = st_alerts (w_store w)
  /\ st_resources (w_store r.2) = st_resources (w_store w)
  /\ st_checkins (w_store r.2) = st_checkins (w_store w)
  /\ st_reports (w_store r.2) = st_reports (w_store w)
  /\ exists fl, st_files (w_store r.2) = (st_files (w_store w) ++ fl)%list
                /\ (length fl <= 1)%nat.
Proof.
  run_writes. simpl. destruct file as [file|]; simpl;
    [destruct (originalname file) as [|a name]; simpl;
       [|destruct (env_store_error env); simpl]|].
  all: split_and!; try done; try (eexists; split; [done|]; simpl; set_solver).
  all: first [ by exists []; rewrite app_nil_r; simpl; split; [done|lia]
             | eexists [_]; simpl; split; [done|lia] ].
Qed.

End Effects.

Lemma statuses_of_handlers (s : Z) :
  s ∈ [200; 500] \/ s ∈ [200; 404; 500] \/ s ∈ [201; 500] \/ s ∈ [401; 403] ->
  s ∈ statuses.
Proof. unfold statuses. set_solver. Qed.

Ltac fin :=
  try assumption;
  lazymatch goal with
  | |- _ ∈ statuses =>
      first [ apply statuses_of_handlers; tauto
            | simpl; unfold statuses;
              repeat first [ apply list_elem_of_here | apply list_elem_of_further ] ]
  | |- (_ <= _)%nat => simpl; lia
  | |- added _ _ _ _ _ _ _ => by apply same_data_added
  | |- _ => first [ done | by intros; congruence ]
  end.

Section Summary.

Context `{RegExpEngine}.
Variable copy : Copy.
Variable cfg : Config.
Variable env : Env.

(** A route with multer in front of its handler: the handler runs on what
    multer leaves, or the error handler answers for multer. *)
Lemma file_route_run opts field handler req w :
  (forall file w1, exists response, (handler file w1).1 = Ok response) ->
  let s := single opts field (env_now env) req w in
  let r := with_error_handling (file <- single opts field (env_now env) req ;; handler file) w in
  (exists file, s.1 = Ok file /\ r = handler file s.2)
  \/ (exists e, s.1 = Throw e
                /\ r.1 = Ok (status_json 500 (JError "Internal server error"))
                /\ w_store r.2 = w_store s.2 /\ w_disk r.2 = w_disk s.2).
Proof.
  intros Hh. unfold with_error_handling, try_catch, bind. simpl.
  destruct (single opts field (env_now env) req w) as [[file|e] w1]; simpl.
  - left. exists file. split; [done|].
    destruct (Hh file w1) as [response Hr]. by destruct (handler file w1) as [[?|?] ?].
  - right. by exists e.
Qed.

(** Every request in one statement: the routes with the error handler
    answer, with one of six statuses; the world after the request is the
    world before it with the listed documents and files added, at most one
    document and one file; a GET adds nothing; a request that
    [authenticateToken] turns away adds no alert, report, check-in or file on
    disk; the second copy writes no file to disk. *)
Lemma routes_summary req w :
  let r := with_error_handling (routes copy cfg env req) w in
  exists response al rp ck fl dk,
    r.1 = Ok response /\ status response ∈ statuses
    /\ added w r.2 al rp ck fl dk
    /\ (length al + length rp + length ck + length fl <= 1)%nat
    /\ (length dk <= 1)%nat
    /\ (req_method req = GET -> al = [] /\ rp = [] /\ ck = [] /\ fl = [] /\ dk = [])
    /\ (forall answer, authenticateToken cfg env req = inl answer ->
          al = [] /\ rp = [] /\ ck = [] /\ dk = [])
    /\ (copy = SecondCopy -> dk = []).
Proof.
  assert (Hsame : forall m response w',
            m w = (Ok response, w') -> status response ∈ statuses -> same_data w w' ->
            exists response al rp ck fl dk,
              (with_error_handling m w).1 = Ok response /\ status response ∈ statuses
              /\ added w (with_error_handling m w).2 al rp ck fl dk
              /\ (length al + length rp + length ck + length fl <= 1)%nat
              /\ (length dk <= 1)%nat
              /\ (req_method req = GET -> al = [] /\ rp = [] /\ ck = [] /\ fl = [] /\ dk = [])
              /\ (forall answer, authenticateToken cfg env req = inl answer ->
                    al = [] /\ rp = [] /\ ck = [] /\ dk = [])
              /\ (copy = SecondCopy -> dk = [])).
  { intros m response w' Hm Hs Hd.
    rewrite (with_error_handling_ok m w response) by (by rewrite Hm). rewrite Hm. simpl.
    exists response, [], [], [], [], []. split_and!; fin. }
  destruct (read_handlers_effect env req w)
    as ((ra & Hra & Hsa) & Hda & (rr & Hrr & Hsr) & Hdr & (rn & Hrn & Hsn) & Hdn).
  intros r. subst r.
  destruct (routes_cases copy cfg env req)
    as [[Hm ->]|[[Hm ->]|[[Hm ->]|[[Hm ->]|[[Hm ->]|[[Hm ->]|[[Hm ->]|[(Hm & Hcopy & ->)| ->]]]]]]]].
  - (* login *)
    apply (Hsame _ (post_api_login cfg env req) w); [done| |done].
    unfold post_api_login. apply statuses_of_handlers. case_match; simpl; set_solver.
  - (* GET /api/alerts *)
    destruct (get_api_alerts env req w) as [o w'] eqn:Hrun. simpl in *. subst o.
    apply (Hsame _ ra w'); [done|fin|done].
  - (* POST /api/alerts *)
    unfold authenticated. destruct (authenticateToken cfg env req) as [answer|user] eqn:Hauth.
    + apply (Hsame _ answer w); [done| |done].
      apply authenticateToken_status in Hauth. fin.
    + destruct (post_api_alerts_effect env req w)
        as ((response & Hr & Hs) & Hdisk & Hrp & Hrs & Hck & Hfl & al & Hal & Hlen).
      rewrite (with_error_handling_ok _ w response) by done.
      exists response, al, [], [], [], []. rewrite Hm. unfold added. rewrite !app_nil_r.
      split_and!; fin.
  - (* POST /api/reports *)
    unfold authenticated. destruct (authenticateToken cfg env req) as [answer|user] eqn:Hauth.
    + apply (Hsame _ answer w); [done| |done].
      apply authenticateToken_status in Hauth. fin.
    + destruct (single_effect (upload copy) "media" (env_now env) req w)
        as (Hstore & dk & Hdk & Hlen & Hdisk).
      destruct (file_route_run (upload copy) "media" (post_api_reports env copy req) req w)
        as [(file & Hs & ->)|(e & Hs & Hr & Hst & Hd)].
      { intros file w1.
        by destruct (post_api_reports_effect copy env req file w1) as ((response & ? & _) & _);
          exists response. }
      * destruct (post_api_reports_effect copy env req file
                    (single (upload copy) "media" (env_now env) req w).2)
          as ((response & Hr & Hst) & Hd & Hal & Hrs & Hck & Hfl & rp & Hrp & Hlrp).
        exists response, [], rp, [], [], dk. rewrite Hm. unfold added. rewrite !app_nil_r.
        rewrite Hd, Hal, Hrs, Hck, Hfl, Hrp, Hdk, Hstore.
        split_and!; try fin.
        all: intros Hc; destruct dk as [|f dk]; [done|].
        all: destruct Hdisk as [Hdisk _]; [done|]; by rewrite Hc in Hdisk.
      * eexists _, [], [], [], [], dk. rewrite Hm. unfold added. rewrite !app_nil_r.
        rewrite Hr, Hst, Hd, Hdk, Hstore.
        split_and!; try fin.
        all: intros Hc; destruct dk as [|f dk]; [done|].
        all: destruct Hdisk as [Hdisk _]; [done|]; by rewrite Hc in Hdisk.
  - (* GET /api/resources *)
    destruct (get_api_resources env req w) as [o w'] eqn:Hrun. simpl in *. subst o.
    apply (Hsame _ rr w'); [done|fin|done].
  - (* GET /api/news *)
    destruct (get_api_news env req w) as [o w'] eqn:Hrun. simpl in *. subst o.
    apply (Hsame _ rn w'); [done|fin|done].
  - (* POST /api/checkins *)
    unfold authenticated. destruct (authenticateToken cfg env req) as [answer|user] eqn:Hauth.
    + apply (Hsame _ answer w); [done| |done].
      apply authenticateToken_status in Hauth. fin.
    + destruct (post_api_checkins_effect cfg env req w)
        as ((response & Hr & Hs) & Hdisk & Hal & Hrp & Hrs & Hfl & ck & Hck & Hlen).
      rewrite (with_error_handling_ok _ w response) by done.
      exists response, [], [], ck, [], []. rewrite Hm. unfold added. rewrite !app_nil_r.
      split_and!; fin.
  - (* POST /upload *)
    destruct (single_effect upload2 "file" (env_now env) req w)
      as (Hstore & dk & Hdk & Hlen & Hdisk).
    assert (dk = []) as ->.
    { destruct dk as [|f dk]; [done|]. by destruct Hdisk as [Hdisk _]. }
    rewrite app_nil_r in Hdk.
    destruct (file_route_run upload2 "file" (post_upload env req) req w)
      as [(file & Hs & ->)|(e & Hs & Hr & Hst & Hd)].
    { intros file w1.
      by destruct (post_upload_effect env req file w1) as ((response & ? & _) & _);
        exists response. }
    + destruct (post_upload_effect env req file (single upload2 "file" (env_now env) req w).2)
        as ((response & Hr & Hst) & Hd & Hal & Hrs & Hck & Hrp & fl & Hfl & Hlfl).
      exists response, [], [], [], fl, []. rewrite Hm. unfold added. rewrite !app_nil_r.
      rewrite Hd, Hal, Hrs, Hck, Hfl, Hrp, Hdk, Hstore.
      split_and!; fin.
    + eexists _, [], [], [], [], []. rewrite Hm. unfold added. rewrite !app_nil_r.
      rewrite Hr, Hst, Hd, Hdk, Hstore.
      split_and!; fin.
  - (* no route *)
    apply (Hsame _ (cannot req) w); [done|fin|done].
Qed.

End Summary.

(** ** The routes as a whole *)

Section RouteProperties.

Context `{RegExpEngine}.
Variable copy : Copy.
Variable cfg : Config.
Variable env : Env.



(** X3.  A GET changes neither the store nor the disk, whatever its path. *)
Theorem get_changes_nothing req w :
  req_method req = GET ->
  same_data w (with_error_handling (routes copy cfg env req) w).2.
Proof.
  intros Hm.
  destruct (routes_summary copy cfg env req w)
    as (response & al & rp & ck & fl & dk & _ & _ & Ha & _ & _ & Hget & _).
  destruct (Hget Hm) as (-> & -> & -> & -> & ->). by apply added_same_data.
Qed.

(** X4.  A request that [authenticateToken] turns away writes no alert, no
    report, no check-in and no file to disk, on whatever route. *)
Theorem rejected_token_writes_nothing req w answer :
  authenticateToken cfg env req = inl answer ->
  let w' := (with_error_handling (routes copy cfg env req) w).2 in
  st_alerts (w_store w') = st_alerts (w_store w)
  /\ st_reports (w_store w') = st_reports (w_store w)
  /\ st_checkins (w_store w') = st_checkins (w_store w)
  /\ w_disk w' = w_disk w.
Proof.
  intros Hauth.
  destruct (routes_summary copy cfg env req w)
    as (response & al & rp & ck & fl & dk & _ & _ & Ha & _ & _ & _ & Htoken & _).
  destruct (Htoken answer Hauth) as (-> & -> & -> & ->).
  destruct Ha as (Hal & Hrp & _ & Hck & _ & Hdk). rewrite !app_nil_r in *. done.
Qed.

End RouteProperties.

(** X5.  The second copy never writes a file to disk. *)
Theorem second_copy_writes_no_file `{RegExpEngine} cfg env req w :
  w_disk (with_error_handling (routes SecondCopy cfg env req) w).2 = w_disk w.
Proof.
  destruct (routes_summary SecondCopy cfg env req w)
    as (response & al & rp & ck & fl & dk & _ & _ & Ha & _ & _ & _ & _ & Hcopy).
  rewrite (Hcopy eq_refl) in Ha. destruct Ha as (_ & _ & _ & _ & _ & Hdk).
  by rewrite app_nil_r in Hdk.
Qed.

(** ** A run of the server *)

Section Runs.

Context `{RegExpEngine}.
Variable copy : Copy.
Variable cfg : Config.






End Runs.

(** ** The token middleware *)

(** X7.  [authenticateToken] lets a request through exactly when the second
    word of its [Authorization] header is a token signed with the secret and
    not yet expired; the first word (the scheme) and any further words are
    not looked at.  It answers 401 'Token required' exactly when the header
    is missing or has no second word or an empty one, and 403 'Invalid
    token' in every other case. *)
Theorem authenticateToken_outcomes cfg env req :
  (forall user,
     authenticateToken cfg env req = inr user <->
     exists scheme rest,
       req_authorization req = Some (scheme :: Jwt user :: rest)
       /\ tk_signed_with user = jwt_secret cfg
       /\ clockTimestamp (env_now env) < tk_exp user)
  /\ (authenticateToken cfg env req = inl (status_json 401 (JError "Token required")) <->
      req_authorization req = None
      \/ req_authorization req = Some []
      \/ (exists scheme, req_authorization req = Some [scheme])
      \/ (exists scheme rest, req_authorization req = Some (scheme :: Word "" :: rest)))
  /\ (forall answer,
        authenticateToken cfg env req = inl answer ->
        answer = status_json 401 (JError "Token required")
        \/ answer = status_json 403 (JError "Invalid token")).
Proof.
  unfold authenticateToken, jwt_verify.
  destruct (req_authorization req) as [[|scheme [|[[|a s]|t] rest]]|]; simpl.
  1-3,6: split_and!; [intros user; split; [done|by intros (? & ? & ? & _)]
                     | split; [intros _|done]; eauto 10
                     | intros answer [= <-]; by left ].
  - split_and!; [intros user; split; [done|by intros (? & ? & ? & _)]
                | split; [done|]; intros [?|[?|[[? ?]|(? & ? & ?)]]]; simplify_eq
                | intros answer [= <-]; by right ].
  - case_bool_decide as Hsig; simpl;
      [destruct (Z.leb_spec (tk_exp t) (clockTimestamp (env_now env))) as [Hexp|Hexp]|].
    + split_and!; [intros user; split; [done|intros (? & ? & ? & ? & ?); simplify_eq; lia]
                  | split; [done|]; intros [?|[?|[[? ?]|(? & ? & ?)]]]; simplify_eq
                  | intros answer [= <-]; by right ].
    + split_and!; [intros user; split;
                     [intros [= <-]; by exists scheme, rest
                     |by intros (? & ? & ? & ? & ?); simplify_eq]
                  | split; [done|]; intros [?|[?|[[? ?]|(? & ? & ?)]]]; simplify_eq
                  | done ].
    + split_and!; [intros user; split; [done|intros (? & ? & ? & ? & ?); simplify_eq]
                  | split; [done|]; intros [?|[?|[[? ?]|(? & ? & ?)]]]; simplify_eq
                  | intros answer [= <-]; by right ].
Qed.

(** X8.  When [JWT_SECRET] is unset or empty the secret is the literal of
    the source: any unexpired token signed with ['safebharatsecret'] is let
    through, whatever user it names. *)
Theorem default_secret_accepted cfg env req scheme rest token :
  JWT_SECRET cfg = None \/ JWT_SECRET cfg = Some "" ->
  req_authorization req = Some (scheme :: Jwt token :: rest) ->
  tk_signed_with token = "safebharatsecret" ->
  clockTimestamp (env_now env) < tk_exp token ->
  authenticateToken cfg env req = inr token.
Proof.
  intros Hsecret Hh Hsig Hexp. unfold authenticateToken, jwt_verify. rewrite Hh. simpl.
  assert (jwt_secret cfg = "safebharatsecret") as ->
    by (unfold jwt_secret; by destruct Hsecret as [-> | ->]).
  rewrite bool_decide_eq_true_2 by done. simpl.
  by destruct (Z.leb_spec (tk_exp token) (clockTimestamp (env_now env))); [lia|].
Qed.

(** ** Alerts *)

Lemma insert_by_time_perm a l : insert_by_time a l ≡ₚ a :: l.
Proof.
  induction l as [|b l IH]; simpl; [done|].
  destruct (al_time b <? al_time a); [done|]. by rewrite IH, Permutation_swap.
Qed.

Lemma sort_time_desc_perm l : sort_time_desc l ≡ₚ l.
Proof.
  unfold sort_time_desc. induction l as [|a l IH]; simpl; [done|].
  by rewrite insert_by_time_perm, IH.
Qed.

Lemma insert_by_time_sorted a l :
  StronglySorted newer_first l -> StronglySorted newer_first (insert_by_time a l).
Proof.
  induction 1 as [|b l Hl IH Hb]; simpl; [by repeat constructor|].
  destruct (Z.ltb_spec (al_time b) (al_time a)).
  - constructor; [by constructor|]. constructor; [unfold newer_first; lia|].
    eapply Forall_impl; [exact Hb|]. unfold newer_first. intros c ?. lia.
  - constructor; [done|]. rewrite insert_by_time_perm. by constructor.
Qed.

Lemma sort_time_desc_sorted l : StronglySorted newer_first (sort_time_desc l).
Proof.
  unfold sort_time_desc. induction l as [|a l IH]; simpl; [constructor|].
  by apply insert_by_time_sorted.
Qed.

(** An alert newer than all the others sorts first. *)
Lemma sort_time_desc_newest a l :
  Forall (fun b => al_time b < al_time a) l ->
  sort_time_desc (l ++ [a]) = a :: sort_time_desc l.
Proof.
  unfold sort_time_desc. rewrite foldr_app. simpl.
  induction 1 as [|b l Hb Hl IH]; simpl; [done|].
  rewrite IH. simpl. by destruct (Z.ltb_spec (al_time a) (al_time b)); [lia|].
Qed.

Section Alerts.

Variable env : Env.

(** X9.  When the store answers, [GET /api/alerts] lists the newest alerts,
    newest first: the list is sorted by time, it has 50 entries or all the
    alerts when there are fewer, and what it leaves out is no newer than
    what it lists. *)
Theorem alerts_newest_first req w :
  env_store_error env = None ->
  exists l rest,
    (get_api_alerts env req w).1 = Ok (json (JAlerts l))
    /\ length l = Nat.min 50 (length (st_alerts (w_store w)))
    /\ l ++ rest ≡ₚ st_alerts (w_store w)
    /\ StronglySorted newer_first l
    /\ forall a b, a ∈ l -> b ∈ rest -> al_time b <= al_time a.
Proof.
  intros Hs.
  exists (take 50 (sort_time_desc (st_alerts (w_store w)))),
         (drop 50 (sort_time_desc (st_alerts (w_store w)))).
  pose proof (sort_time_desc_sorted (st_alerts (w_store w))) as Hsorted.
  rewrite <- (take_drop 50 (sort_time_desc (st_alerts (w_store w)))) in Hsorted.
  split_and!.
  - run_reads. simpl. by rewrite Hs.
  - by rewrite length_take, sort_time_desc_perm.
  - by rewrite take_drop, sort_time_desc_perm.
  - by apply StronglySorted_app_1_l in Hsorted.
  - intros a b Ha Hb. by apply (StronglySorted_app_1_elem_of _ _ _ _ _ Hsorted).
Qed.

(** X10.  [POST /api/alerts] stores the alert exactly when it answers 201:
    with a title and a message that are non-empty strings and a store that
    answers, the alert is added at the end with the time of the request;
    otherwise the answer is 500 'Server error' and store and disk are
    untouched. *)
Theorem alert_saved_or_untouched req w :
  let alert := {| al_title := req_title req; al_message := req_message req;
                  al_time := env_now env |} in
  let r := post_api_alerts env req w in
  let valid := truthy (req_title req) = true /\ truthy (req_message req) = true
               /\ env_store_error env = None in
  (valid -> r.1 = Ok (status_json 201 (JAlert alert))
            /\ st_alerts (w_store r.2) = (st_alerts (w_store w) ++ [alert])%list)
  /\ (~ valid -> r.1 = Ok (status_json 500 (JError "Server error")) /\ same_data w r.2).
Proof.
  run_writes. simpl.
  destruct (truthy (req_title req)); simpl;
    [destruct (truthy (req_message req)); simpl;
       [destruct (env_store_error env); simpl|]|].
  all: split; [intros (? & ? & ?); by simplify_eq|intros Hn; try done].
  by destruct Hn.
Qed.

(** X11.  An alert that was posted is listed: after a successful
    [POST /api/alerts], when every alert stored before is older than the
    request, the next [GET /api/alerts] that the store answers has the new
    alert at its head. *)
Theorem alert_posted_then_listed env' req req' w :
  truthy (req_title req) = true -> truthy (req_message req) = true ->
  env_store_error env = None -> env_store_error env' = None ->
  Forall (fun b => al_time b < env_now env) (st_alerts (w_store w)) ->
  exists others,
    (get_api_alerts env' req' (post_api_alerts env req w).2).1
      = Ok (json (JAlerts ({| al_title := req_title req; al_message := req_message req;
                              al_time := env_now env |} :: others))).
Proof.
  intros Ht Hm Hs Hs' Hold.
  exists (take 49 (sort_time_desc (st_alerts (w_store w)))).
  run_writes. run_reads. simpl. rewrite Ht, Hm. simpl. rewrite Hs. simpl. rewrite Hs'. simpl.
  by rewrite sort_time_desc_newest.
Qed.

End Alerts.

(** ** Check-ins *)

Section CheckIns.

Variable cfg : Config.
Variable env : Env.

(** X12.  Without an SMS gateway the check-in handler never dispatches an
    SMS, and a check-in that passes validation while the store answers is
    saved and answered 201. *)
Theorem checkin_without_gateway req w :
  twilioClient cfg = false ->
  (forall to body, SmsSend to body ∉ calls (post_api_checkins cfg env req) w)
  /\ (persists env req ->
      (post_api_checkins cfg env req w).1 = Ok (status_json 201 (JCheckin (checkin_of env req)))
      /\ st_checkins (w_store (post_api_checkins cfg env req w).2)
         = (st_checkins (w_store w) ++ [checkin_of env req])%list).
Proof.
  intros Ht. split.
  - run_handler. rewrite Ht.
    destruct (req_message req) as [[|a m]|], (req_phone req) as [[|b p]|]; simpl;
      try destruct (env_store_error env); simpl; log_calls; intros to body Hin; in_log Hin.
  - intros Hp. by rewrite checkin_saved.
Qed.

(** X13.  A check-in whose message or phone is missing or empty is answered
    500 'Server error' before anything is tried: the world is as before, no
    save, no SMS. *)
Theorem checkin_invalid_untouched req w :
  truthy (req_message req) = false \/ truthy (req_phone req) = false ->
  post_api_checkins cfg env req w = (Ok (status_json 500 (JError "Server error")), w).
Proof.
  intros Hbad. run_handler.
  destruct (truthy (req_message req)); simpl; [|done].
  destruct (truthy (req_phone req)); simpl; [|done]. by destruct Hbad.
Qed.

End CheckIns.

(** ** The resolver *)

Lemma sublist_List_filter {A} (f : A -> bool) (l : list A) : List.filter f l `sublist_of` l.
Proof.
  induction l as [|a l IH]; simpl; [done|].
  destruct (f a); by constructor.
Qed.

Section ResolverMore.

Context `{RegExpEngine}.
Variable env : Env.

(** X14.  When the geocoder cannot be reached the answer is 500 'Server
    error', not 404, and the store is not asked. *)
Theorem resources_geocoder_unreachable req w city msg :
  req_city req = Some city -> city <> "" ->
  env_geocoder env (city +:+ ", India") = GeoFailure msg ->
  get_api_resources env req w =
    (Ok (status_json 500 (JError "Server error")),
     {| w_store := w_store w; w_disk := w_disk w;
        w_log := w_log w ++ [Geocode (city +:+ ", India")] |}).
Proof.
  intros Hc Hne Hg. run_handler. rewrite Hc. destruct city; [done|]. simpl.
  simpl in Hg. by rewrite Hg.
Qed.

(** X15.  Whatever the city and whatever the pattern engine, a list of
    resources that is answered is a sublist of the stored resources in their
    order, of at most 100 entries; with a city that is a non-empty string it
    has at most 50 entries and each of them has a city field. *)
Theorem resources_answer_bounded req w response l :
  (get_api_resources env req w).1 = Ok response ->
  body response = JResources l ->
  l `sublist_of` st_resources (w_store w)
  /\ (length l <= 100)%nat
  /\ (truthy (req_city req) = true ->
      (length l <= 50)%nat /\ Forall (fun r => is_Some (rs_city r)) l).
Proof.
  run_handler. destruct (truthy (req_city req)); simpl.
  - destruct (env_geocoder env _) as [[|n]|msg]; simpl; [by intros [= <-]| |by intros [= <-]].
    destruct (RegExp_i _) as [re|]; simpl; [|by intros [= <-]].
    destruct (env_store_error env); simpl; [by intros [= <-]|].
    intros [= <-] [= <-]. split_and!.
    + etrans; [apply sublist_take|]. apply sublist_List_filter.
    + rewrite length_take. lia.
    + intros _. split; [rewrite length_take; lia|].
      apply Forall_take, Forall_forall. intros r [_ Hr]%list_elem_of_In%List.filter_In.
      by destruct (rs_city r).
  - destruct (env_store_error env); simpl; [by intros [= <-]|].
    intros [= <-] [= <-]. split_and!; [apply sublist_take|rewrite length_take; lia|done].
Qed.

End ResolverMore.

(** ** The uploads of the second copy *)

Section SecondCopyUploads.

Context `{RegExpEngine}.
Variable cfg : Config.
Variable env : Env.

Lemma single_upload2 field req w :
  single upload2 field (env_now env) req w =
    match req_part req with
    | None => (Ok None, w)
    | Some part =>
        if negb (bool_decide (fp_fieldname part = field)) then (Throw (MulterError "Unexpected field"), w)
        else if negb (startsWith "image/" (fp_mimetype part)
                      || bool_decide (fp_mimetype part = "application/pdf"))
        then (Throw {| exn_name := "Error"; exn_message := "Invalid file type" |}, w)
        else if 5 * 1024 * 1024 <? fp_size part then (Throw (MulterError "File too large"), w)
        else (Ok (Some {| originalname := fp_originalname part; mimetype := fp_mimetype part;
                          size := fp_size part; filename := None;
                          buffer := Some (fp_buffer part) |}), w)
    end.
Proof.
  unfold single. destruct (req_part req) as [part|]; [|done].
  destruct (bool_decide (fp_fieldname part = field)); simpl; [|done].
  unfold bind, ret, throw. simpl.
  destruct (startsWith "image/" (fp_mimetype part) || bool_decide (fp_mimetype part = "application/pdf"));
    simpl; [|done].
  by destruct (5 * 1024 * 1024 <? fp_size part).
Qed.

Lemma passes_upload2_spec part :
  passes_upload2 part <->
  (startsWith "image/" (fp_mimetype part) || bool_decide (fp_mimetype part = "application/pdf")) = true
  /\ (5 * 1024 * 1024 <? fp_size part) = false.
Proof.
  unfold passes_upload2. rewrite orb_true_iff, bool_decide_eq_true, Z.ltb_ge. done.
Qed.

(** X16.  [/upload] in the second copy answers 'File metadata saved!'
    exactly when the request carries a part in the field [file] that is an
    image or a PDF of at most 5 MiB with a non-empty name and the store
    answers; the record saved then holds the name, size and declared type of
    the part, not its content.  In every other case the store is as before. *)
Theorem upload_saved_iff req w :
  req_method req = POST -> req_path req = "/upload" ->
  let r := with_error_handling (routes SecondCopy cfg env req) w in
  (r.1 = Ok (json (JMessage "File metadata saved!")) <->
     exists part, req_part req = Some part /\ fp_fieldname part = "file"
                  /\ passes_upload2 part /\ fp_originalname part <> ""
                  /\ env_store_error env = None)
  /\ (forall part, req_part req = Some part ->
        r.1 = Ok (json (JMessage "File metadata saved!")) ->
        st_files (w_store r.2) = (st_files (w_store w) ++ [file_of env part])%list
        /\ st_alerts (w_store r.2) = st_alerts (w_store w)
        /\ st_reports (w_store r.2) = st_reports (w_store w)
        /\ st_checkins (w_store r.2) = st_checkins (w_store w))
  /\ (r.1 <> Ok (json (JMessage "File metadata saved!")) -> w_store r.2 = w_store w).
Proof.
  intros Hm Hp. cbv zeta. rewrite route_upload by done.
  remember (with_error_handling _ w) as r eqn:Hr.
  unfold with_error_handling, try_catch, bind in Hr. rewrite single_upload2 in Hr.
  setoid_rewrite passes_upload2_spec.
  assert (Hno : forall w', r = (Ok (status_json 500 (JError "Internal server error")), w') ->
                  w_store w' = w_store w ->
                  ~ (exists part, req_part req = Some part /\ fp_fieldname part = "file"
                       /\ ((startsWith "image/" (fp_mimetype part)
                             || bool_decide (fp_mimetype part = "application/pdf")) = true
                           /\ (5 * 1024 * 1024 <? fp_size part) = false)
                       /\ fp_originalname part <> "" /\ env_store_error env = None) ->
                  (r.1 = Ok (json (JMessage "File metadata saved!")) <->
                     exists part, req_part req = Some part /\ fp_fieldname part = "file"
                       /\ ((startsWith "image/" (fp_mimetype part)
                             || bool_decide (fp_mimetype part = "application/pdf")) = true
                           /\ (5 * 1024 * 1024 <? fp_size part) = false)
                       /\ fp_originalname part <> "" /\ env_store_error env = None)
                  /\ (forall part, req_part req = Some part ->
                        r.1 = Ok (json (JMessage "File metadata saved!")) ->
                        st_files (w_store r.2) = (st_files (w_store w) ++ [file_of env part])%list
                        /\ st_alerts (w_store r.2) = st_alerts (w_store w)
                        /\ st_reports (w_store r.2) = st_reports (w_store w)
                        /\ st_checkins (w_store r.2) = st_checkins (w_store w))
                  /\ (r.1 <> Ok (json (JMessage "File metadata saved!")) -> w_store r.2 = w_store w)).
  { intros w' -> Hw' Hnot. simpl. split_and!; [by split|done|done]. }
  destruct (req_part req) as [part|] eqn:Hpart.
  - case_bool_decide as Hf; simpl in Hr.
    + destruct (startsWith "image/" (fp_mimetype part) || bool_decide (fp_mimetype part = "application/pdf"))
        eqn:Htype; simpl in Hr.
      * destruct (5 * 1024 * 1024 <? fp_size part) eqn:Hsize; simpl in Hr.
        -- eapply Hno; [done..|]. intros (? & ? & ? & [? ?] & _). simplify_eq. congruence.
        -- unfold post_upload, File_save, store_call, required, prop,
             try_catch, bind, ret, throw, emit, get_store, put_store in Hr. simpl in Hr.
           clear Hno.
           destruct (fp_originalname part) as [|a n] eqn:Hn; simpl in Hr.
           ++ subst r. simpl.
              split_and!; [split; [done|intros (? & ? & ? & ? & ? & _); simplify_eq]|done|done].
           ++ destruct (env_store_error env) as [msg|] eqn:Hs; simpl in Hr; subst r; simpl.
              ** split_and!; [split; [done|intros (? & ? & ? & ? & ? & ?); simplify_eq]|done|done].
              ** split_and!; [split; [intros _; exists part; by rewrite Hn|done]
                             |intros ? [= <-] _; unfold file_of; by rewrite Hn|done].
      * eapply Hno; [done..|]. intros (? & ? & ? & [? ?] & _). simplify_eq. congruence.
    + eapply Hno; [done..|]. intros (? & ? & ? & _). simplify_eq.
  - clear Hno. unfold post_upload, prop, try_catch, bind, throw, ret in Hr. simpl in Hr.
    subst r. simpl.
    split_and!; [split; [done|intros (? & ? & _); simplify_eq]|done|done].
Qed.

(** X17.  [/api/reports] in the second copy, for a request with a valid
    token, answers 201 exactly when the description is a non-empty string,
    the store answers and the file part, if there is one, is in the field
    [media] and is an image or a PDF of at most 5 MiB.  The report saved
    carries the content of the part inline, or no media without a part; in
    every other case the store is as before. *)
Theorem second_copy_report_saved_iff req w user :
  req_method req = POST -> req_path req = "/api/reports" ->
  authenticateToken cfg env req = inr user ->
  let r := with_error_handling (routes SecondCopy cfg env req) w in
  ((exists response, r.1 = Ok response /\ status response = 201) <->
     truthy (req_description req) = true /\ env_store_error env = None
     /\ (forall part, req_part req = Some part ->
           fp_fieldname part = "media" /\ passes_upload2 part))
  /\ (forall response, r.1 = Ok response -> status response = 201 ->
        response = status_json 201 (JReport (report_of2 env req))
        /\ st_reports (w_store r.2) = (st_reports (w_store w) ++ [report_of2 env req])%list)
  /\ ((forall response, r.1 = Ok response -> status response <> 201) ->
      w_store r.2 = w_store w).
Proof.
  intros Hm Hp Hauth. cbv zeta. rewrite route_reports by done.
  unfold authenticated. rewrite Hauth.
  remember (with_error_handling _ w) as r eqn:Hr.
  unfold with_error_handling, try_catch, bind in Hr. rewrite single_upload2 in Hr.
  setoid_rewrite passes_upload2_spec.
  set (valid := truthy (req_description req) = true /\ env_store_error env = None
                /\ (forall part, req_part req = Some part ->
                      fp_fieldname part = "media"
                      /\ (startsWith "image/" (fp_mimetype part)
                           || bool_decide (fp_mimetype part = "application/pdf")) = true
                      /\ (5 * 1024 * 1024 <? fp_size part) = false)).
  assert (Hno : forall body w', r = (Ok (status_json 500 body), w') ->
                  w_store w' = w_store w -> ~ valid ->
                  ((exists response, r.1 = Ok response /\ status response = 201) <-> valid)
                  /\ (forall response, r.1 = Ok response -> status response = 201 ->
                        response = status_json 201 (JReport (report_of2 env req))
                        /\ st_reports (w_store r.2)
                           = (st_reports (w_store w) ++ [report_of2 env req])%list)
                  /\ ((forall response, r.1 = Ok response -> status response <> 201) ->
                      w_store r.2 = w_store w)).
  { intros b w' -> Hw' Hnot. simpl.
    split_and!; [split; [by intros (? & [= <-] & ?)|done]|by intros ? [= <-]|done]. }
  assert (Hyes : forall w', r = (Ok (status_json 201 (JReport (report_of2 env req))), w') ->
                  st_reports (w_store w') = (st_reports (w_store w) ++ [report_of2 env req])%list ->
                  valid ->
                  ((exists response, r.1 = Ok response /\ status response = 201) <-> valid)
                  /\ (forall response, r.1 = Ok response -> status response = 201 ->
                        response = status_json 201 (JReport (report_of2 env req))
                        /\ st_reports (w_store r.2)
                           = (st_reports (w_store w) ++ [report_of2 env req])%list)
                  /\ ((forall response, r.1 = Ok response -> status response <> 201) ->
                      w_store r.2 = w_store w)).
  { intros w' -> Hw' Hvalid. simpl.
    split_and!; [split; [done|intros _; by eexists]|by intros ? [= <-] _|].
    intros Hnot. by destruct (Hnot _ eq_refl). }
  unfold valid in *. unfold report_of2 in *. clear valid.
  destruct (req_part req) as [part|] eqn:Hpart.
  - case_bool_decide as Hf; simpl in Hr.
    + destruct (startsWith "image/" (fp_mimetype part) || bool_decide (fp_mimetype part = "application/pdf"))
        eqn:Htype; simpl in Hr.
      * destruct (5 * 1024 * 1024 <? fp_size part) eqn:Hsize; simpl in Hr.
        -- eapply Hno; [done..|]. intros (_ & _ & Hv). destruct (Hv part eq_refl) as (_ & _ & ?).
           congruence.
        -- unfold post_api_reports, Report_save, store_call, required,
             try_catch, bind, ret, throw, emit, get_store, put_store in Hr. simpl in Hr.
           destruct (req_description req) as [[|a d]|] eqn:Hd; simpl in Hr.
           1,3: eapply Hno; [done..|]; by intros (? & _).
           destruct (env_store_error env) as [msg|] eqn:Hs; simpl in Hr.
           ++ eapply Hno; [done..|]. by intros (_ & ? & _).
           ++ eapply Hyes; [done..|]. split_and!; [done..|]. by intros ? [= <-].
      * eapply Hno; [done..|]. intros (_ & _ & Hv). destruct (Hv part eq_refl) as (_ & ? & _).
        congruence.
    + eapply Hno; [done..|]. intros (_ & _ & Hv). by destruct (Hv part eq_refl) as (? & _).
  - unfold post_api_reports, Report_save, store_call, required,
      try_catch, bind, ret, throw, emit, get_store, put_store in Hr. simpl in Hr.
    destruct (req_description req) as [[|a d]|] eqn:Hd; simpl in Hr.
    1,3: eapply Hno; [done..|]; by intros (? & _).
    destruct (env_store_error env) as [msg|] eqn:Hs; simpl in Hr.
    + eapply Hno; [done..|]. by intros (_ & ? & _).
    + eapply Hyes; [done..|]. split_and!; done.
Qed.

End SecondCopyUploads.

(** ** The properties at concrete requests *)

Lemma get_changes_nothing_witness :
  let req := with_city "Pune" (request "10.0.0.1" GET "/api/resources") in
  let w := world_with [pune] in
  same_data w
    (with_error_handling
       (routes (H := small_engine) FirstCopy no_config (env_with 0 geocoder1) req) w).2.
Proof.
  intros req w.
  exact (get_changes_nothing (H := small_engine) FirstCopy no_config (env_with 0 geocoder1)
           req w eq_refl).
Defined.

Lemma rejected_token_writes_nothing_witness :
  let req := post_alert "Flood" "stay indoors" in
  let w := world_with_alerts [alert_at 5 "Heat"] in
  let w' := (with_error_handling
               (routes (H := small_engine) SecondCopy no_config (env_with 10 geocoder1) req) w).2 in
  st_alerts (w_store w') = [alert_at 5 "Heat"]
  /\ st_reports (w_store w') = []
  /\ st_checkins (w_store w') = []
  /\ w_disk w' = [].
Proof.
  intros req w.
  exact (rejected_token_writes_nothing (H := small_engine) SecondCopy no_config
           (env_with 10 geocoder1) req w (status_json 401 (JError "Token required")) eq_refl).
Defined.

Lemma default_secret_accepted_witness :
  authenticateToken no_config (env_with 1700000000500 geocoder1)
    (bearer token1 (post_alert "Flood" "stay indoors")) = inr token1.
Proof.
  exact (default_secret_accepted no_config (env_with 1700000000500 geocoder1)
           (bearer token1 (post_alert "Flood" "stay indoors")) (Word "Bearer") [] token1
           (or_introl eq_refl) eq_refl eq_refl eq_refl).
Defined.

Lemma alerts_newest_first_witness :
  let w := world_with_alerts [alert_at 5 "Heat"; alert_at 9 "Flood"; alert_at 7 "Storm"] in
  exists l rest,
    (get_api_alerts (env_with 10 geocoder1) (request "10.0.0.1" GET "/api/alerts") w).1
      = Ok (json (JAlerts l))
    /\ length l = Nat.min 50 (length (st_alerts (w_store w)))
    /\ (l ++ rest)%list ≡ₚ st_alerts (w_store w)
    /\ StronglySorted newer_first l
    /\ forall a b, a ∈ l -> b ∈ rest -> al_time b <= al_time a.
Proof.
  intros w.
  exact (alerts_newest_first (env_with 10 geocoder1) (request "10.0.0.1" GET "/api/alerts") w
           eq_refl).
Defined.

Lemma alert_posted_then_listed_witness :
  let w := world_with_alerts [alert_at 5 "Heat"; alert_at 9 "Flood"] in
  let env := env_with 10 geocoder1 in
  exists others,
    (get_api_alerts (env_with 20 geocoder1) (request "10.0.0.1" GET "/api/alerts")
       (post_api_alerts env (post_alert "Storm" "stay indoors") w).2).1
      = Ok (json (JAlerts ({| al_title := Some "Storm"; al_message := Some "stay indoors";
                              al_time := 10 |} :: others))).
Proof.
  intros w env.
  apply (alert_posted_then_listed env (env_with 20 geocoder1) (post_alert "Storm" "stay indoors")
           (request "10.0.0.1" GET "/api/alerts") w); try reflexivity.
  repeat constructor.
Defined.

Lemma checkin_without_gateway_witness :
  let env := env_with 1000 geocoder1 in
  let req := check_in "safe at home" "+919800000000" in
  let w := world_with [] in
  (post_api_checkins no_config env req w).1 = Ok (status_json 201 (JCheckin (checkin_of env req)))
  /\ st_checkins (w_store (post_api_checkins no_config env req w).2) = [checkin_of env req].
Proof.
  intros env req w.
  destruct (checkin_without_gateway no_config env req w eq_refl) as [_ Hsaved].
  apply Hsaved. repeat split.
Defined.

Lemma checkin_invalid_untouched_witness :
  let w := world_with [pune] in
  post_api_checkins no_config (env_with 1000 geocoder1) (check_in "safe at home" "") w
    = (Ok (status_json 500 (JError "Server error")), w).
Proof.
  intros w.
  exact (checkin_invalid_untouched no_config (env_with 1000 geocoder1)
           (check_in "safe at home" "") w (or_intror eq_refl)).
Defined.

Lemma resources_geocoder_unreachable_witness :
  let w := world_with [pune] in
  get_api_resources (H := small_engine) (env_geocoder_down 0 "getaddrinfo ENOTFOUND")
      (with_city "Pune" (request "10.0.0.1" GET "/api/resources")) w
    = (Ok (status_json 500 (JError "Server error")),
       {| w_store := w_store w; w_disk := []; w_log := [Geocode "Pune, India"] |}).
Proof.
  intros w.
  apply (resources_geocoder_unreachable (H := small_engine)
           (env_geocoder_down 0 "getaddrinfo ENOTFOUND")
           (with_city "Pune" (request "10.0.0.1" GET "/api/resources")) w "Pune"
           "getaddrinfo ENOTFOUND"); [reflexivity|discriminate|reflexivity].
Defined.

Lemma resources_answer_bounded_witness :
  let w := world_with [atlantis; pune] in
  [pune] `sublist_of` st_resources (w_store w)
  /\ (length [pune] <= 100)%nat
  /\ (truthy (Some "Pune") = true ->
      (length [pune] <= 50)%nat /\ Forall (fun r => is_Some (rs_city r)) [pune]).
Proof.
  intros w.
  exact (resources_answer_bounded (H := small_engine) (env_with 0 geocoder1)
           (with_city "Pune" (request "10.0.0.1" GET "/api/resources")) w
           (json (JResources [pune])) [pune] eq_refl eq_refl).
Defined.

Lemma upload_saved_iff_witness :
  let env := env_with 1700000000500 geocoder1 in
  let r := with_error_handling
             (routes (H := small_engine) SecondCopy no_config env (upload_of (Some photo_png)))
             (world_with []) in
  r.1 = Ok (json (JMessage "File metadata saved!"))
  /\ st_files (w_store r.2) = [file_of env photo_png].
Proof.
  intros env r.
  destruct (upload_saved_iff (H := small_engine) no_config env (upload_of (Some photo_png))
              (world_with []) eq_refl eq_refl) as (Hiff & Hsaved & _).
  assert (Hr : r.1 = Ok (json (JMessage "File metadata saved!"))).
  { apply Hiff. exists photo_png.
    split; [reflexivity|]. split; [reflexivity|].
    split; [split; [left; reflexivity|vm_compute; discriminate]|].
    split; [discriminate|reflexivity]. }
  split; [exact Hr|]. exact (proj1 (Hsaved photo_png eq_refl Hr)).
Defined.

Lemma second_copy_report_saved_iff_witness :
  let env := env_with 1700000000500 geocoder1 in
  let req := report_with scan_pdf "flood at the bridge" in
  let r := with_error_handling (routes (H := small_engine) SecondCopy no_config env req)
             (world_with []) in
  let report := {| rp_description := Some "flood at the bridge"; rp_location := None;
                   rp_media := Some (MediaDataUri "application/pdf" "%PDF");
                   rp_createdAt := 1700000000500 |} in
  r.1 = Ok (status_json 201 (JReport report))
  /\ st_reports (w_store r.2) = [report]
  /\ w_disk r.2 = [].
Proof.
  intros env req r report.
  destruct (second_copy_report_saved_iff (H := small_engine) no_config env req (world_with [])
              token1 eq_refl eq_refl eq_refl) as (Hiff & Hsaved & _).
  assert (Hvalid : exists response, r.1 = Ok response /\ status response = 201).
  { apply Hiff. split; [reflexivity|]. split; [reflexivity|].
    intros part [= <-].
    split; [reflexivity|]. split; [right; reflexivity|vm_compute; discriminate]. }
  destruct Hvalid as (response & Hr & Hs).
  destruct (Hsaved response Hr Hs) as [-> Hreports].
  split; [exact Hr|]. split; [exact Hreports|reflexivity].
Defined.
